(** * token-manager: the NFT minter form and its attribute list

    A shallow embedding of the two React components of the repository:
    - [AttributeList] (src/components/NFTMinter/AttributeList.tsx): the
      index-addressed editing of the attribute sequence;
    - [NFTMinter] (the minter component): the [handleMint] submit handler,
      a sequential pipeline of awaited calls wrapped in try/catch/finally.

    Effects are modelled by a small state-and-exception monad over the
    component's state store and a log of the observable calls. *)

From stdpp Require Import gmap strings list fin_maps.
From Stdlib Require Import ZArith Lia.

Open Scope string_scope.
Open Scope list_scope.

(* ===================================================================== *)
(** ** AttributeList.tsx *)
(* ===================================================================== *)

Module AttributeList.

(** One entry of the [attributes] prop: [{ trait_type: "", value: "" }]. *)
Record Attribute := { trait_type : string; value : string }.

(** [Array.prototype.filter] with a callback that receives the element and
    its index; [i] is the index of the head of [l] in the whole array. *)
Fixpoint filter_from {A : Type} (cb : A → nat → bool) (i : nat) (l : list A)
  : list A :=
  match l with
  | [] => []
  | x :: l' =>
      if cb x i then x :: filter_from cb (S i) l' else filter_from cb (S i) l'
  end.

Definition Array_filter {A : Type} (cb : A → nat → bool) (l : list A) : list A :=
  filter_from cb 0 l.

(** [handleRemoveAttribute]: the array handed to [setAttributes], that is
    [attributes.filter((_, i) => i !== index)].  The index is an integer,
    negative ones included. *)
Definition handleRemoveAttribute (attributes : list Attribute) (index : Z)
  : list Attribute :=
  Array_filter (fun _ i => negb (Z.of_nat i =? index)%Z) attributes.

(** [handleAddAttribute]: [[...attributes, { trait_type: "", value: "" }]]. *)
Definition handleAddAttribute (attributes : list Attribute) : list Attribute :=
  attributes ++ [ {| trait_type := ""; value := "" |} ].

End AttributeList.

(* ===================================================================== *)
(** ** The minter component: data *)
(* ===================================================================== *)

Module NFTMinter.

(** The browser's [File] handle chosen in the image input. *)
Record File := { file_name : string; file_content : string }.

(** What [useWallet()] supplies. *)
Record WalletAdapter := { adapter_name : string }.
Record Wallet := { adapter : WalletAdapter }.
Record WalletContext := {
  publicKey : option string;
  wallet : option Wallet
}.

(** The nine [useState] cells of the component. *)
Record State := {
  name : string;
  symbol : string;
  description : string;
  image : option File;
  isMinting : bool;
  transactionLink : string;
  metadataUri : string;
  imageUrl : string;
  useCore : bool
}.

Definition initialState : State :=
  {| name := ""; symbol := ""; description := ""; image := None;
     isMinting := false; transactionLink := ""; metadataUri := "";
     imageUrl := ""; useCore := false |}.

(** The argument of [toast({...})]; [variant] is absent in the success toast. *)
Record Toast := {
  title : string;
  toast_description : string;
  variant : option string
}.

(** A value thrown by one of the awaited library calls.  The handler's
    [catch] never inspects it. *)
Inductive Exn :=
| NetworkError
| UploadRejected
| SigningRejected
| ChainRejected
| TypeError.

(** The second and third arguments of [axios.post]. *)
Inductive Body :=
| FormData (entries : list (string * File))
| JsonBody (doc : gmap string string).

Record Headers := {
  pinata_api_key : option string;
  pinata_secret_api_key : option string;
  content_type : string
}.

Record PinataResponse := { IpfsHash : string }.

(** Umi: an endpoint and the plugins installed with [.use]. *)
Inductive UmiPlugin :=
| mplCore
| mplTokenMetadata
| walletAdapterIdentity (a : WalletAdapter).

Record Umi := { endpoint : string; plugins : list UmiPlugin }.

Definition createUmi (url : string) : Umi := {| endpoint := url; plugins := [] |}.

Definition use (p : UmiPlugin) (umi : Umi) : Umi :=
  {| endpoint := endpoint umi; plugins := plugins umi ++ [p] |}.

Record Signer := { signer_publicKey : string }.

(** [percentAmount(p)]: a percentage with two decimals, in basis points. *)
Definition percentAmount (p : N) : N := (p * 100)%N.

Record CoreCreateInput := {
  asset : Signer;
  core_name : string;
  core_uri : string
}.

Record CreateNftInput := {
  mint : Signer;
  sellerFeeBasisPoints : N;
  nft_name : string;
  nft_uri : string
}.

(** The two transaction builders: [create] of mpl-core and [createNft] of
    mpl-token-metadata. *)
Inductive TransactionBuilder :=
| create (umi : Umi) (input : CoreCreateInput)
| createNft (umi : Umi) (input : CreateNftInput).

Record TxResult := { signature : list Byte.byte }.

(** The observable calls of a run, in the order they are made. *)
Inductive Event :=
| axios_post_call (url : string) (body : Body) (headers : Headers)
| sendAndConfirm_call (builder : TransactionBuilder) (umi : Umi)
| toast_call (t : Toast)
| console_log (msg arg : string)
| console_error (msg : string) (error : Exn).

(** The calls that leave the browser: the two pinning-service requests and
    the on-chain submission. *)
Definition is_network_call (ev : Event) : bool :=
  match ev with
  | axios_post_call _ _ _ | sendAndConfirm_call _ _ => true
  | _ => false
  end.

Definition is_onchain_call (ev : Event) : bool :=
  match ev with
  | sendAndConfirm_call _ _ => true
  | _ => false
  end.

Definition is_toast (ev : Event) : bool :=
  match ev with
  | toast_call _ => true
  | _ => false
  end.

(** The environment the handler runs against: [process.env] and the answer
    of every library call that may throw. *)
Record World := {
  PINATA_API_KEY : option string;
  PINATA_SECRET_API_KEY : option string;
  axios_post : string → Body → Headers → Exn + PinataResponse;
  generateSigner : Umi → Exn + Signer;
  sendAndConfirm : TransactionBuilder → Umi → Exn + TxResult;
  base58_deserialize : list Byte.byte → Exn + (string * nat)
}.

(* ===================================================================== *)
(** ** The state-and-exception monad of a handler run *)
(* ===================================================================== *)

Record Sys := { store : State; log : list Event }.

Inductive Result (A : Type) :=
| Returned (a : A) (σ : Sys)
| Threw (e : Exn) (σ : Sys).
Arguments Returned {A} a σ.
Arguments Threw {A} e σ.

Definition M (A : Type) : Type := Sys → Result A.

#[global] Instance M_ret : MRet M := λ A a σ, Returned a σ.

#[global] Instance M_bind : MBind M := λ A B f m σ,
  match m σ with
  | Returned a σ' => f a σ'
  | Threw e σ' => Threw e σ'
  end.

Definition final {A : Type} (r : Result A) : Sys :=
  match r with
  | Returned _ σ | Threw _ σ => σ
  end.

Definition emit (ev : Event) : M unit :=
  λ σ, Returned () {| store := store σ; log := log σ ++ [ev] |}.

Definition setState (f : State → State) : M unit :=
  λ σ, Returned () {| store := f (store σ); log := log σ |}.

(** An awaited call: it is logged, then either resolves or throws. *)
Definition await {A : Type} (ev : Event) (answer : Exn + A) : M A :=
  λ σ,
    let σ' := {| store := store σ; log := log σ ++ [ev] |} in
    match answer with
    | inl e => Threw e σ'
    | inr a => Returned a σ'
    end.

(** A call that is not logged and may throw. *)
Definition attempt {A : Type} (answer : Exn + A) : M A :=
  λ σ,
    match answer with
    | inl e => Threw e σ
    | inr a => Returned a σ
    end.

(** [try { body } catch (error) { handler } finally { fin }]. *)
Definition try_catch_finally (body : M unit) (handler : Exn → M unit)
  (fin : M unit) : M unit :=
  λ σ,
    match body σ with
    | Returned _ σ1 => fin σ1
    | Threw e σ1 =>
        match handler e σ1 with
        | Returned _ σ2 => fin σ2
        | Threw e' σ2 =>
            match fin σ2 with
            | Returned _ σ3 => Threw e' σ3
            | Threw e'' σ3 => Threw e'' σ3
            end
        end
    end.

(* ===================================================================== *)
(** ** The state setters and the calls of the handler *)
(* ===================================================================== *)

(** Pure updates of one cell of the store, and the [useState] setters. *)
Definition with_name (v : string) (s : State) : State :=
  {| name := v; symbol := symbol s; description := description s;
     image := image s; isMinting := isMinting s; transactionLink := transactionLink s;
     metadataUri := metadataUri s; imageUrl := imageUrl s; useCore := useCore s |}.

Definition with_symbol (v : string) (s : State) : State :=
  {| name := name s; symbol := v; description := description s;
     image := image s; isMinting := isMinting s; transactionLink := transactionLink s;
     metadataUri := metadataUri s; imageUrl := imageUrl s; useCore := useCore s |}.

Definition with_description (v : string) (s : State) : State :=
  {| name := name s; symbol := symbol s; description := v;
     image := image s; isMinting := isMinting s; transactionLink := transactionLink s;
     metadataUri := metadataUri s; imageUrl := imageUrl s; useCore := useCore s |}.

Definition with_image (v : option File) (s : State) : State :=
  {| name := name s; symbol := symbol s; description := description s;
     image := v; isMinting := isMinting s; transactionLink := transactionLink s;
     metadataUri := metadataUri s; imageUrl := imageUrl s; useCore := useCore s |}.

Definition with_isMinting (v : bool) (s : State) : State :=
  {| name := name s; symbol := symbol s; description := description s;
     image := image s; isMinting := v; transactionLink := transactionLink s;
     metadataUri := metadataUri s; imageUrl := imageUrl s; useCore := useCore s |}.

Definition with_transactionLink (v : string) (s : State) : State :=
  {| name := name s; symbol := symbol s; description := description s;
     image := image s; isMinting := isMinting s; transactionLink := v;
     metadataUri := metadataUri s; imageUrl := imageUrl s; useCore := useCore s |}.

Definition with_metadataUri (v : string) (s : State) : State :=
  {| name := name s; symbol := symbol s; description := description s;
     image := image s; isMinting := isMinting s; transactionLink := transactionLink s;
     metadataUri := v; imageUrl := imageUrl s; useCore := useCore s |}.

Definition with_imageUrl (v : string) (s : State) : State :=
  {| name := name s; symbol := symbol s; description := description s;
     image := image s; isMinting := isMinting s; transactionLink := transactionLink s;
     metadataUri := metadataUri s; imageUrl := v; useCore := useCore s |}.

Definition with_useCore (v : bool) (s : State) : State :=
  {| name := name s; symbol := symbol s; description := description s;
     image := image s; isMinting := isMinting s; transactionLink := transactionLink s;
     metadataUri := metadataUri s; imageUrl := imageUrl s; useCore := v |}.

Definition setName (v : string) : M unit := setState (with_name v).
Definition setSymbol (v : string) : M unit := setState (with_symbol v).
Definition setDescription (v : string) : M unit := setState (with_description v).
Definition setImage (v : option File) : M unit := setState (with_image v).
Definition setIsMinting (v : bool) : M unit := setState (with_isMinting v).
Definition setTransactionLink (v : string) : M unit := setState (with_transactionLink v).
Definition setMetadataUri (v : string) : M unit := setState (with_metadataUri v).
Definition setImageUrl (v : string) : M unit := setState (with_imageUrl v).
Definition setUseCore (v : bool) : M unit := setState (with_useCore v).

Definition toast (t : Toast) : M unit := emit (toast_call t).

(** JavaScript truthiness of a string: only the empty string is falsy. *)
Definition truthy (s : string) : bool :=
  match s with
  | EmptyString => false
  | String _ _ => true
  end.

Definition pinFileToIPFS : string := "https://api.pinata.cloud/pinning/pinFileToIPFS".
Definition pinJSONToIPFS : string := "https://api.pinata.cloud/pinning/pinJSONToIPFS".
Definition gateway : string := "https://gateway.pinata.cloud/ipfs/".

(** The [headers] option of both requests; they differ in the content type. *)
Definition pinata_headers (pinataApiKey pinataSecretApiKey : option string)
  (contentType : string) : Headers :=
  {| pinata_api_key := pinataApiKey;
     pinata_secret_api_key := pinataSecretApiKey;
     content_type := contentType |}.

Definition wallet_not_connected : Toast :=
  {| title := "Wallet not connected";
     toast_description := "Please connect your wallet first";
     variant := Some "destructive" |}.

Definition missing_information : Toast :=
  {| title := "Missing information";
     toast_description := "Please fill in all fields";
     variant := Some "destructive" |}.

Definition error_minting : Toast :=
  {| title := "Error minting NFT";
     toast_description := "Please try again";
     variant := Some "destructive" |}.

Definition minted_successfully (assetOrMint : Signer) : Toast :=
  {| title := "NFT minted successfully!";
     toast_description := "Mint address: " +:+ signer_publicKey assetOrMint;
     variant := None |}.

(** The object literal [{ name, description, symbol, image: imageUrl }]. *)
Definition build_metadata (c : State) (imageUrl : string) : gmap string string :=
  {[ "name" := name c;
     "description" := description c;
     "symbol" := symbol c;
     "image" := imageUrl ]}.

(** The block-explorer URL of a transaction signature. *)
Definition explorer_link (signature : string) : string :=
  "https://explorer.solana.com/tx/" +:+ signature +:+ "?cluster=devnet".

(** Step 3 of the handler: [createUmi(...).use(...).use(...)]. *)
Definition configure_umi (useCore : bool) (wal : Wallet) : Umi :=
  use (walletAdapterIdentity (adapter wal))
    (use (if useCore then mplCore else mplTokenMetadata)
       (createUmi "https://api.devnet.solana.com")).

Section Handler.

Variable w : World.

Definition post (url : string) (body : Body) (headers : Headers)
  : M PinataResponse :=
  await (axios_post_call url body headers) (axios_post w url body headers).

Definition send_and_confirm (builder : TransactionBuilder) (umi : Umi)
  : M TxResult :=
  await (sendAndConfirm_call builder umi) (sendAndConfirm w builder umi).

(** The body of the [try] block of [handleMint].  [c] holds the values the
    handler closed over when the form was rendered; [wal] and [img] are the
    wallet and the image after the two guards have narrowed them. *)
Definition mint_attempt (wal : Wallet) (img : File) (c : State) : M unit :=
  (* Step 1: upload the image *)
  let pinataApiKey := PINATA_API_KEY w in
  let pinataSecretApiKey := PINATA_SECRET_API_KEY w in
  let formData := [("file", img)] in
  pinataImageResponse ←
    post pinFileToIPFS (FormData formData)
      (pinata_headers pinataApiKey pinataSecretApiKey "multipart/form-data");
  let imageHash := IpfsHash pinataImageResponse in
  let imageUrl := gateway +:+ imageHash in
  setImageUrl imageUrl;;
  emit (console_log "Image uploaded to IPFS at:" imageUrl);;
  (* Step 2: upload the metadata *)
  let metadata := build_metadata c imageUrl in
  pinataMetadataResponse ←
    post pinJSONToIPFS (JsonBody metadata)
      (pinata_headers pinataApiKey pinataSecretApiKey "application/json");
  let metadataHash := IpfsHash pinataMetadataResponse in
  let metadataUri := gateway +:+ metadataHash in
  setMetadataUri metadataUri;;
  emit (console_log "Metadata uploaded to IPFS at:" metadataUri);;
  (* Step 3: set up Umi *)
  let umi := configure_umi (useCore c) wal in
  assetOrMint ← attempt (generateSigner w umi);
  (* Step 4: mint *)
  tx ←
    (if useCore c then
       send_and_confirm
         (create umi {| asset := assetOrMint;
                        core_name := metadata !!! "name";
                        core_uri := metadataUri |}) umi
     else
       send_and_confirm
         (createNft umi {| mint := assetOrMint;
                           sellerFeeBasisPoints := percentAmount 0;
                           nft_name := metadata !!! "name";
                           nft_uri := metadataUri |}) umi);
  deserialized ← attempt (base58_deserialize w (signature tx));
  let signature := deserialized.1 in
  let transactionLink := explorer_link signature in
  setTransactionLink transactionLink;;
  toast (minted_successfully assetOrMint);;
  setName "";;
  setSymbol "";;
  setDescription "";;
  setImage None.

(** [handleMint]: the two guards, then the try/catch/finally. *)
Definition handleMint (ctx : WalletContext) (c : State) : M unit :=
  match publicKey ctx, wallet ctx with
  | Some _, Some wal =>
      match truthy (name c), truthy (symbol c), truthy (description c), image c with
      | true, true, true, Some img =>
          setIsMinting true;;
          try_catch_finally
            (mint_attempt wal img c)
            (λ error,
               emit (console_error "Error minting NFT:" error);;
               toast error_minting)
            (setIsMinting false)
      | _, _, _, _ => toast missing_information
      end
  | _, _ => toast wallet_not_connected
  end.

(** One click on the mint button: the handler closes over the rendered state
    [c], which is also the content of the store when it starts. *)
Definition click_mint (ctx : WalletContext) (c : State) : Result unit :=
  handleMint ctx c {| store := c; log := [] |}.

(** The [try] block alone, entered as [handleMint] enters it. *)
Definition run_attempt (wal : Wallet) (img : File) (c : State) : Result unit :=
  (setIsMinting true;; mint_attempt wal img c) {| store := c; log := [] |}.

End Handler.

(** The result block of the rendered card: shown only when a transaction
    link is stored; it carries the three link targets. *)
Definition rendered_details (s : State) : option (string * string * string) :=
  if truthy (transactionLink s)
  then Some (transactionLink s, imageUrl s, metadataUri s)
  else None.

(** What [catch] and [finally] add to the outcome of the [try] block. *)
Definition finish (r : Result unit) : Result unit :=
  match r with
  | Returned _ σ =>
      Returned () {| store := with_isMinting false (store σ); log := log σ |}
  | Threw e σ =>
      Returned ()
        {| store := with_isMinting false (store σ);
           log := log σ ++ [console_error "Error minting NFT:" e;
                            toast_call error_minting] |}
  end.

(** The answers of the world to the two pinning requests of a run. *)
Definition image_upload (w : World) (img : File) : Exn + PinataResponse :=
  axios_post w pinFileToIPFS (FormData [("file", img)])
    (pinata_headers (PINATA_API_KEY w) (PINATA_SECRET_API_KEY w)
       "multipart/form-data").

Definition metadata_upload (w : World) (c : State) (imageUrl : string)
  : Exn + PinataResponse :=
  axios_post w pinJSONToIPFS (JsonBody (build_metadata c imageUrl))
    (pinata_headers (PINATA_API_KEY w) (PINATA_SECRET_API_KEY w)
       "application/json").

(** The two guards of [handleMint], read as predicates on its inputs. *)
Definition validated (ctx : WalletContext) (c : State) (wal : Wallet)
  (img : File) : Prop :=
  is_Some (publicKey ctx) ∧ wallet ctx = Some wal ∧
  name c ≠ "" ∧ symbol c ≠ "" ∧ description c ≠ "" ∧ image c = Some img.

Definition precondition_fails (ctx : WalletContext) (c : State) : Prop :=
  publicKey ctx = None ∨ wallet ctx = None ∨
  name c = "" ∨ symbol c = "" ∨ description c = "" ∨ image c = None.

(** Which of the two creation paths a submitted builder belongs to. *)
Definition is_core_path (builder : TransactionBuilder) : bool :=
  match builder with
  | create _ _ => true
  | createNft _ _ => false
  end.

(** The plugin that goes with each path. *)
Definition path_plugin (builder : TransactionBuilder) : UmiPlugin :=
  match builder with
  | create _ _ => mplCore
  | createNft _ _ => mplTokenMetadata
  end.

End NFTMinter.

(* ===================================================================== *)
(** ** Concrete inputs used to exercise the statements *)
(* ===================================================================== *)

Module Demo.
Import AttributeList NFTMinter.

Definition traits : list Attribute :=
  [ {| trait_type := "fur"; value := "gold" |};
    {| trait_type := "eyes"; value := "laser" |};
    {| trait_type := "hat"; value := "crown" |} ].

Definition phantom : Wallet := {| adapter := {| adapter_name := "Phantom" |} |}.

Definition connected : WalletContext :=
  {| publicKey := Some "4Nd1mYQ"; wallet := Some phantom |}.

Definition disconnected : WalletContext :=
  {| publicKey := None; wallet := None |}.

Definition ape_png : File := {| file_name := "ape.png"; file_content := "PNG" |}.

(** A filled form, after an earlier mint left its three links behind. *)
Definition form : State :=
  {| name := "Ape"; symbol := "APE"; description := "An ape";
     image := Some ape_png; isMinting := false;
     transactionLink := "https://explorer.solana.com/tx/old?cluster=devnet";
     metadataUri := "https://gateway.pinata.cloud/ipfs/QmOldMeta";
     imageUrl := "https://gateway.pinata.cloud/ipfs/QmOldImage";
     useCore := true |}.

Definition form_without_name : State := with_name "" form.

(** Every call answers. *)
Definition happy : World :=
  {| PINATA_API_KEY := Some "key";
     PINATA_SECRET_API_KEY := Some "secret";
     axios_post := λ url _ _,
       inr {| IpfsHash := if String.eqb url pinFileToIPFS
                          then "QmImage" else "QmMeta" |};
     generateSigner := λ _, inr {| signer_publicKey := "As5et" |};
     sendAndConfirm := λ _ _, inr {| signature := [Byte.x01; Byte.x02] |};
     base58_deserialize := λ _, inr ("5ig", 2) |}.

(** Both uploads answer, the chain rejects the transaction. *)
Definition rejecting : World :=
  {| PINATA_API_KEY := Some "key";
     PINATA_SECRET_API_KEY := Some "secret";
     axios_post := axios_post happy;
     generateSigner := generateSigner happy;
     sendAndConfirm := λ _ _, inl ChainRejected;
     base58_deserialize := base58_deserialize happy |}.

(** The pinning service is unreachable. *)
Definition offline : World :=
  {| PINATA_API_KEY := Some "key";
     PINATA_SECRET_API_KEY := Some "secret";
     axios_post := λ _ _ _, inl NetworkError;
     generateSigner := generateSigner happy;
     sendAndConfirm := sendAndConfirm happy;
     base58_deserialize := base58_deserialize happy |}.

End Demo.

(* ===================================================================== *)
(** ** AttributeList.tsx with the attribute objects shared by reference *)
(* ===================================================================== *)

(** [handleAttributeChange] writes into an object that the copied array
    shares with the array it was copied from.  Here the [attributes] prop is
    an array of references into a heap of objects, an object being a map from
    property names to strings. *)
Module AttributeObjects.
Import AttributeList.

(** The object literal [{ trait_type: "", value: "" }]. *)
Definition blank : gmap string string :=
  {[ "trait_type" := ""; "value" := "" ]}.

(** [array[index]] for an integer index: [undefined] outside the array. *)
Definition element {A : Type} (array : list A) (index : Z) : option A :=
  if (index <? 0)%Z then None else array !! Z.to_nat index.

(** The assignment [object[key] = value] of a string to an object made by
    an object literal.  The key ["__proto__"] is not a property of the object
    itself: the write reaches the setter inherited from [Object.prototype],
    which ignores a value that is neither an object nor null, so nothing
    changes.  Every other key sets a property of the object. *)
Definition assign (key value : string) (object : gmap string string)
  : gmap string string :=
  if String.eqb key "__proto__" then object else <[key := value]> object.

(** [handleAttributeChange]: the spread copies the references; the write
    [updatedAttributes[index][key] = value] goes to the shared object and
    throws a TypeError ([None]) when [updatedAttributes[index]] is undefined,
    in which case [setAttributes] is not reached.  Otherwise the result is
    the heap after the write and the array handed to [setAttributes]. *)
Definition handleAttributeChange (heap : gmap nat (gmap string string))
  (attributes : list nat) (index : Z) (key value : string)
  : option (gmap nat (gmap string string) * list nat) :=
  let updatedAttributes := attributes in
  match element updatedAttributes index with
  | None => None
  | Some ref =>
      Some (alter (assign key value) ref heap, updatedAttributes)
  end.

(** [handleAddAttribute]: a new object is allocated and appended. *)
Definition handleAddAttribute (heap : gmap nat (gmap string string))
  (attributes : list nat) : gmap nat (gmap string string) * list nat :=
  let ref := fresh (dom heap) in
  (<[ref := blank]> heap, attributes ++ [ref]).

(** [handleRemoveAttribute]: the filter builds a new array of the remaining
    references; no object is touched. *)
Definition handleRemoveAttribute (heap : gmap nat (gmap string string))
  (attributes : list nat) (index : Z)
  : gmap nat (gmap string string) * list nat :=
  (heap, Array_filter (λ _ i, negb (Z.of_nat i =? index)%Z) attributes).

(** The object that the row at position [i] of the rendered list reads:
    [attributes.map((attribute, index) => ...)] dereferences each entry. *)
Definition row (heap : gmap nat (gmap string string)) (attributes : list nat)
  (i : nat) : option (gmap string string) :=
  attributes !! i ≫= λ ref, heap !! ref.

(** Every entry refers to an object of its own, and the object exists. *)
Definition distinct_live (heap : gmap nat (gmap string string))
  (attributes : list nat) : Prop :=
  NoDup attributes ∧ ∀ ref, ref ∈ attributes → is_Some (heap !! ref).

End AttributeObjects.

(* ===================================================================== *)
(** ** The minter component: the other handlers and the rendered controls *)
(* ===================================================================== *)

Module MinterView.
Import NFTMinter.

(** [handleImageChange]: [e.target.files] is null or a FileList; a FileList
    is truthy even when empty, and [files[0]] of an empty one is undefined. *)
Definition handleImageChange (files : option (list File)) : M unit :=
  match files with
  | Some fileList => setImage (head fileList)
  | None => mret ()
  end.

(** The mint button: [disabled={!publicKey || isMinting}] and its label. *)
Definition mint_button_disabled (ctx : WalletContext) (s : State) : bool :=
  match publicKey ctx with
  | Some _ => isMinting s
  | None => true
  end.

Definition mint_button_label (s : State) : string :=
  if isMinting s then "Minting..." else "Mint NFT".

(** What a transaction builder was given: the name, the uri, and the signer
    passed as [asset] or as [mint]. *)
Definition builder_name (builder : TransactionBuilder) : string :=
  match builder with
  | create _ input => core_name input
  | createNft _ input => nft_name input
  end.

Definition builder_uri (builder : TransactionBuilder) : string :=
  match builder with
  | create _ input => core_uri input
  | createNft _ input => nft_uri input
  end.

Definition builder_signer (builder : TransactionBuilder) : Signer :=
  match builder with
  | create _ input => asset input
  | createNft _ input => mint input
  end.

(** The seller fee of a builder; [create] of mpl-core takes none. *)
Definition builder_fee (builder : TransactionBuilder) : option N :=
  match builder with
  | create _ _ => None
  | createNft _ input => Some (sellerFeeBasisPoints input)
  end.

(** The store after one event handler has run on the store [s]. *)
Definition after (handler : M unit) (s : State) : State :=
  store (final (handler {| store := s; log := [] |})).

End MinterView.

(** Concrete attribute objects. *)
Module DemoObjects.
Import AttributeObjects.

Definition fur : gmap string string := {[ "trait_type" := "fur"; "value" := "gold" ]}.
Definition eyes : gmap string string := {[ "trait_type" := "eyes"; "value" := "laser" ]}.

Definition heap : gmap nat (gmap string string) := {[ 0 := fur; 1 := eyes ]}.
Definition attributes : list nat := [0; 1].

End DemoObjects.

(** Further worlds and forms. *)
Module DemoFlows.
Import NFTMinter.

(** The image upload answers, the metadata upload is rejected. *)
Definition json_rejected : World :=
  {| PINATA_API_KEY := Some "key";
     PINATA_SECRET_API_KEY := Some "secret";
     axios_post := λ url _ _,
       if String.eqb url pinFileToIPFS
       then inr {| IpfsHash := "QmImage" |} else inl UploadRejected;
     generateSigner := generateSigner Demo.happy;
     sendAndConfirm := sendAndConfirm Demo.happy;
     base58_deserialize := base58_deserialize Demo.happy |}.

(** A form filled in for the first time: no links stored, no image yet. *)
Definition first_form : State :=
  {| name := "Owl"; symbol := "OWL"; description := "An owl";
     image := None; isMinting := false;
     transactionLink := ""; metadataUri := ""; imageUrl := "";
     useCore := false |}.

Definition owl_png : File := {| file_name := "owl.png"; file_content := "PNG" |}.
Definition owl_jpg : File := {| file_name := "owl.jpg"; file_content := "JPG" |}.

Definition first_form_with_image : State := with_image (Some owl_png) first_form.

End DemoFlows.

(* ===================================================================== *)
(** ** Properties of the attribute list *)
(* ===================================================================== *)

Module AttributeListFacts.
Import AttributeList.

Section Filter.
Context {A : Type}.
Implicit Types (l : list A) (i k : nat) (index : Z).

(** Dropping the one index [k + i] from an array whose head has index [k]. *)
Lemma filter_from_hit l k i :
  i < length l →
  filter_from (λ (_ : A) j, negb (Z.of_nat j =? Z.of_nat (k + i))%Z) k l
  = take i l ++ drop (S i) l.
Proof.
  revert k i. induction l as [|x l IH]; intros k i Hi; simpl in *; [lia|].
  destruct i as [|i].
  - replace (k + 0) with k by lia. rewrite Z.eqb_refl. simpl.
    clear IH Hi. revert k.
    assert (∀ m k, k < m →
      filter_from (λ (_ : A) j, negb (Z.of_nat j =? Z.of_nat k)%Z) m l = l)
      as Hkeep.
    { induction l as [|y l IHl]; intros m k Hk; simpl; [done|].
      destruct (Z.eqb_spec (Z.of_nat m) (Z.of_nat k)) as [Heq|_]; [lia|].
      simpl. f_equal. apply IHl. lia. }
    intros k. rewrite drop_0. apply Hkeep. lia.
  - destruct (Z.eqb_spec (Z.of_nat k) (Z.of_nat (k + S i))) as [Heq|_]; [lia|].
    simpl. f_equal.
    replace (k + S i) with (S k + i) by lia. apply IH. lia.
Qed.

(** An index outside [k, k + length l) removes nothing. *)
Lemma filter_from_miss l k index :
  (index < Z.of_nat k ∨ Z.of_nat (k + length l) ≤ index)%Z →
  filter_from (λ (_ : A) j, negb (Z.of_nat j =? index)%Z) k l = l.
Proof.
  revert k. induction l as [|x l IH]; intros k Hout; simpl in *; [done|].
  destruct (Z.eqb_spec (Z.of_nat k) index) as [Heq|_]; [lia|].
  simpl. f_equal. apply IH. lia.
Qed.

End Filter.

(** C7: for an in-range index [i], [handleRemoveAttribute] hands to
    [setAttributes] the list with exactly the element at position [i]
    deleted: the elements before [i] followed by the elements after [i], in
    their original order. *)
Theorem handleRemoveAttribute_in_range (attributes : list Attribute) (i : nat) :
  i < length attributes →
  handleRemoveAttribute attributes (Z.of_nat i)
  = take i attributes ++ drop (S i) attributes.
Proof.
  intros Hi. unfold handleRemoveAttribute, Array_filter.
  apply (filter_from_hit attributes 0 i Hi).
Qed.

Lemma handleRemoveAttribute_in_range_witness :
  1 < length Demo.traits ∧
  handleRemoveAttribute Demo.traits 1
  = [ {| trait_type := "fur"; value := "gold" |};
      {| trait_type := "hat"; value := "crown" |} ].
Proof.
  split; [simpl; lia|].
  apply (handleRemoveAttribute_in_range Demo.traits 1). simpl; lia.
Defined.

(** C9: for an index that is negative or at least the length of the list,
    [handleRemoveAttribute] hands to [setAttributes] a list equal to its
    input; the filter signals no bounds error. *)
Theorem handleRemoveAttribute_out_of_range (attributes : list Attribute)
  (index : Z) :
  (index < 0 ∨ Z.of_nat (length attributes) ≤ index)%Z →
  handleRemoveAttribute attributes index = attributes.
Proof.
  intros Hout. unfold handleRemoveAttribute, Array_filter.
  apply filter_from_miss. simpl. lia.
Qed.

Lemma handleRemoveAttribute_out_of_range_witness :
  ((-1 < 0 ∨ Z.of_nat (length Demo.traits) ≤ -1)%Z ∧
   handleRemoveAttribute Demo.traits (-1) = Demo.traits) ∧
  ((3 < 0 ∨ Z.of_nat (length Demo.traits) ≤ 3)%Z ∧
   handleRemoveAttribute Demo.traits 3 = Demo.traits).
Proof.
  split; split.
  - left. lia.
  - apply (handleRemoveAttribute_out_of_range Demo.traits (-1)). left. lia.
  - right. simpl. lia.
  - apply (handleRemoveAttribute_out_of_range Demo.traits 3). right. simpl. lia.
Defined.

(** Removal shortens the list by one. *)
Lemma handleRemoveAttribute_length (attributes : list Attribute) (i : nat) :
  i < length attributes →
  S (length (handleRemoveAttribute attributes (Z.of_nat i))) = length attributes.
Proof.
  intros Hi. unfold handleRemoveAttribute, Array_filter.
  change (Z.of_nat i) with (Z.of_nat (0 + i)).
  rewrite (filter_from_hit attributes 0 i Hi).
  rewrite length_app, length_take, length_drop. lia.
Qed.

End AttributeListFacts.

(* ===================================================================== *)
(** ** Properties of the mint handler *)
(* ===================================================================== *)

Module NFTMinterFacts.
Import NFTMinter.

Lemma truthy_nonempty (s : string) : truthy s = true ↔ s ≠ "".
Proof. destruct s; simpl; split; intros; congruence. Qed.

Lemma truthy_empty (s : string) : truthy s = false ↔ s = "".
Proof. destruct s; simpl; split; intros; congruence. Qed.

(** The metadata object is not unfolded into the map's representation. *)
Lemma metadata_name (c : State) (url : string) :
  build_metadata c url !!! "name" = name c.
Proof. unfold build_metadata. apply lookup_total_insert_eq. Qed.

Lemma metadata_dom (c : State) (url : string) :
  dom (build_metadata c url)
  = ({[ "name"; "description"; "symbol"; "image" ]} : gset string).
Proof.
  unfold build_metadata. rewrite !dom_insert_L, dom_singleton_L. set_solver.
Qed.

Lemma metadata_lookup (c : State) (url : string) :
  build_metadata c url !! "name" = Some (name c) ∧
  build_metadata c url !! "description" = Some (description c) ∧
  build_metadata c url !! "symbol" = Some (symbol c) ∧
  build_metadata c url !! "image" = Some url.
Proof. unfold build_metadata. repeat split; by simplify_map_eq. Qed.

Lemma validated_or_fails (ctx : WalletContext) (c : State) :
  (∃ wal img, validated ctx c wal img) ∨ precondition_fails ctx c.
Proof.
  unfold validated, precondition_fails.
  destruct (publicKey ctx) as [pk|], (wallet ctx) as [wal|],
    (image c) as [img|]; try tauto.
  destruct (decide (name c = "")), (decide (symbol c = "")),
    (decide (description c = "")); try tauto.
  left. exists wal, img. repeat split; eauto.
Qed.

(** The two URL templates, spelled out. *)
Lemma gateway_literal : gateway = "https://gateway.pinata.cloud/ipfs/".
Proof. reflexivity. Qed.

Lemma explorer_link_literal (signature : string) :
  explorer_link signature
  = "https://explorer.solana.com/tx/" +:+ signature +:+ "?cluster=devnet".
Proof. reflexivity. Qed.

#[local] Opaque build_metadata gateway pinFileToIPFS pinJSONToIPFS String.append.

(** Unfold one run of the [try] block and split on the answers of the world. *)
Ltac unfold_run :=
  cbv beta iota zeta delta
    [run_attempt mint_attempt post send_and_confirm await attempt emit toast
     setState setName setSymbol setDescription setImage setIsMinting
     setTransactionLink setMetadataUri setImageUrl
     mbind M_bind mret M_ret store log final app].

Ltac split_answers :=
  repeat match goal with
    | |- context [if useCore ?c then _ else _] =>
        let E := fresh "Mode" in destruct (useCore c) eqn:E
    | |- context [match ?x with inl _ => _ | inr _ => _ end] =>
        let E := fresh "Answer" in destruct x eqn:E
    end.

Ltac elem_cases H :=
  repeat (apply elem_of_cons in H as [H|H]); [..|by apply elem_of_nil in H];
  try discriminate H.

Section Runs.

Variable w : World.
Implicit Types (ctx : WalletContext) (c : State) (wal : Wallet) (img : File).

(** *** Entering the [try] block *)

Lemma handleMint_enters ctx c wal img :
  validated ctx c wal img →
  handleMint w ctx c
  = (setIsMinting true;;
     try_catch_finally
       (mint_attempt w wal img c)
       (λ error,
          emit (console_error "Error minting NFT:" error);;
          toast error_minting)
       (setIsMinting false)).
Proof.
  intros ([pk Hpk] & Hwal & Hname & Hsym & Hdesc & Himg).
  unfold handleMint. rewrite Hpk, Hwal, Himg.
  apply truthy_nonempty in Hname, Hsym, Hdesc.
  by rewrite Hname, Hsym, Hdesc.
Qed.

Lemma click_mint_finish ctx c wal img :
  validated ctx c wal img →
  click_mint w ctx c = finish (run_attempt w wal img c).
Proof.
  intros Hv. unfold click_mint, run_attempt.
  rewrite (handleMint_enters _ _ _ _ Hv).
  unfold try_catch_finally, finish.
  cbv beta iota zeta delta
    [mbind M_bind setIsMinting setState emit toast store log].
  destruct (mint_attempt w wal img c _) as [[] σ|e σ]; [done|].
  by rewrite <- app_assoc.
Qed.

(** *** What the [try] block does, by outcome *)

(** When the block completes, every call has answered; the store and the log
    are determined by the answers. *)
Lemma attempt_returned_inv wal img c σ :
  run_attempt w wal img c = Returned () σ →
  ∃ r1 r2 signer builder tx sig,
    let umi := configure_umi (useCore c) wal in
    let imageUrl := gateway +:+ IpfsHash r1 in
    let metadataUri := gateway +:+ IpfsHash r2 in
    image_upload w img = inr r1 ∧
    metadata_upload w c imageUrl = inr r2 ∧
    generateSigner w umi = inr signer ∧
    sendAndConfirm w builder umi = inr tx ∧
    base58_deserialize w (signature tx) = inr sig ∧
    is_core_path builder = useCore c ∧
    store σ
    = with_image None (with_description "" (with_symbol "" (with_name ""
        (with_transactionLink (explorer_link sig.1)
           (with_metadataUri metadataUri
              (with_imageUrl imageUrl (with_isMinting true c))))))) ∧
    log σ
    = [ axios_post_call pinFileToIPFS (FormData [("file", img)])
          (pinata_headers (PINATA_API_KEY w) (PINATA_SECRET_API_KEY w)
             "multipart/form-data");
        console_log "Image uploaded to IPFS at:" imageUrl;
        axios_post_call pinJSONToIPFS (JsonBody (build_metadata c imageUrl))
          (pinata_headers (PINATA_API_KEY w) (PINATA_SECRET_API_KEY w)
             "application/json");
        console_log "Metadata uploaded to IPFS at:" metadataUri;
        sendAndConfirm_call builder umi;
        toast_call (minted_successfully signer) ].
Proof.
  unfold image_upload, metadata_upload.
  unfold_run. split_answers; intros H; simplify_eq.
  all: eexists _, _, _, _, _, _; cbv zeta; rewrite ?Mode.
  all: repeat split; try eassumption; reflexivity.
Qed.

(** When the block throws, the form fields, the mode flag and the stored
    transaction link are those of the submission, and no toast was shown. *)
Lemma attempt_threw_inv wal img c e σ :
  run_attempt w wal img c = Threw e σ →
  name (store σ) = name c ∧ symbol (store σ) = symbol c ∧
  description (store σ) = description c ∧ image (store σ) = image c ∧
  useCore (store σ) = useCore c ∧
  transactionLink (store σ) = transactionLink c ∧
  List.filter is_toast (log σ) = [].
Proof.
  unfold_run. split_answers; intros H; simplify_eq.
  all: by repeat split.
Qed.

(** An on-chain submission in the log is the only one; it follows the mode
    flag, and both uploads have answered and are stored by then. *)
Lemma attempt_onchain_inv wal img c builder umi :
  let σ := final (run_attempt w wal img c) in
  sendAndConfirm_call builder umi ∈ log σ →
  List.filter is_onchain_call (log σ) = [sendAndConfirm_call builder umi] ∧
  is_core_path builder = useCore c ∧
  umi = configure_umi (useCore c) wal ∧
  ∃ r1 r2,
    image_upload w img = inr r1 ∧
    metadata_upload w c (gateway +:+ IpfsHash r1) = inr r2 ∧
    imageUrl (store σ) = gateway +:+ IpfsHash r1 ∧
    metadataUri (store σ) = gateway +:+ IpfsHash r2.
Proof.
  unfold image_upload, metadata_upload.
  unfold_run. split_answers; intros H; elem_cases H; simplify_eq.
  all: repeat split; try reflexivity.
  all: by eexists _, _.
Qed.

(** A JSON document in the log is the metadata object, built after the
    image upload has answered. *)
Lemma attempt_json_inv wal img c url doc headers :
  axios_post_call url (JsonBody doc) headers
    ∈ log (final (run_attempt w wal img c)) →
  ∃ r1, image_upload w img = inr r1 ∧
        doc = build_metadata c (gateway +:+ IpfsHash r1).
Proof.
  unfold image_upload.
  unfold_run. split_answers; intros H; elem_cases H; simplify_eq.
  all: eauto.
Qed.

(** *** The guards *)

Lemma handleMint_rejects ctx c :
  precondition_fails ctx c →
  handleMint w ctx c = toast wallet_not_connected ∨
  handleMint w ctx c = toast missing_information.
Proof.
  unfold precondition_fails, handleMint. intros Hfail.
  destruct (publicKey ctx) as [pk|]; [|by left].
  destruct (wallet ctx) as [wal|]; [|by left].
  right.
  destruct Hfail as [?|[?|[Hn|[Hs|[Hd|Hi]]]]]; try done.
  - by rewrite Hn.
  - rewrite Hs. by destruct (truthy (name c)).
  - rewrite Hd. by destruct (truthy (name c)), (truthy (symbol c)).
  - rewrite Hi.
    by destruct (truthy (name c)), (truthy (symbol c)), (truthy (description c)).
Qed.

(** C2: when the signing identity is absent or one of name, symbol,
    description, image is empty, [handleMint] returns after one destructive
    toast: the store, the submitting flag included, is the one it started
    from, and the toast is the only call added to the log, so no request
    leaves the browser. *)
Theorem handleMint_precondition_failure ctx c (σ : Sys) :
  precondition_fails ctx c →
  ∃ t, (t = wallet_not_connected ∨ t = missing_information) ∧
       variant t = Some "destructive" ∧
       handleMint w ctx c σ
       = Returned () {| store := store σ; log := log σ ++ [toast_call t] |} ∧
       List.filter is_network_call (log (final (handleMint w ctx c σ)))
       = List.filter is_network_call (log σ).
Proof.
  intros Hfail.
  destruct (handleMint_rejects ctx c Hfail) as [-> | ->];
    [exists wallet_not_connected | exists missing_information].
  all: split; [auto|]; split; [done|]; split; [done|].
  all: unfold toast, emit, final; cbv beta iota delta [log].
  all: rewrite List.filter_app; simpl; apply app_nil_r.
Qed.

(** *** Failures of the single steps *)

Lemma image_upload_failure_throws wal img c e :
  image_upload w img = inl e →
  ∃ σ, run_attempt w wal img c = Threw e σ.
Proof.
  unfold image_upload. intros H. unfold_run. rewrite H. eauto.
Qed.

Lemma metadata_upload_failure_throws wal img c r1 e :
  image_upload w img = inr r1 →
  metadata_upload w c (gateway +:+ IpfsHash r1) = inl e →
  ∃ σ, run_attempt w wal img c = Threw e σ.
Proof.
  unfold image_upload, metadata_upload. intros H1 H2.
  unfold_run. rewrite H1, H2. eauto.
Qed.

Lemma submission_failure_throws wal img c r1 r2 signer e :
  image_upload w img = inr r1 →
  metadata_upload w c (gateway +:+ IpfsHash r1) = inr r2 →
  generateSigner w (configure_umi (useCore c) wal) = inr signer →
  (∀ builder, sendAndConfirm w builder (configure_umi (useCore c) wal) = inl e) →
  ∃ σ, run_attempt w wal img c = Threw e σ.
Proof.
  unfold image_upload, metadata_upload. intros H1 H2 H3 H4.
  unfold_run. rewrite H1, H2, H3. destruct (useCore c); rewrite H4; eauto.
Qed.

(** *** Whole runs of the handler *)

Lemma finish_log (r : Result unit) (ev : Event) :
  ev ∈ log (final (finish r)) →
  ev ∈ log (final r) ∨ is_network_call ev = false.
Proof.
  destruct r as [[] σ|e σ]; simpl; [by left|].
  rewrite elem_of_app. intros [H|H]; [by left|right].
  elem_cases H; by subst.
Qed.

Lemma finish_filter (f : Event → bool) (r : Result unit) :
  (∀ msg e, f (console_error msg e) = false) →
  f (toast_call error_minting) = false →
  List.filter f (log (final (finish r))) = List.filter f (log (final r)).
Proof.
  intros Hc Ht. destruct r as [[] σ|e σ]; simpl; [done|].
  rewrite List.filter_app. simpl. rewrite Hc, Ht. apply app_nil_r.
Qed.

(** The log of a click that the guards let through extends the log of the
    [try] block by the calls of [catch], none of which is a network call. *)
Lemma click_mint_log ctx c (ev : Event) :
  is_network_call ev = true →
  ev ∈ log (final (click_mint w ctx c)) →
  ∃ wal img, validated ctx c wal img ∧
             ev ∈ log (final (run_attempt w wal img c)).
Proof.
  intros Hnet Hin.
  destruct (validated_or_fails ctx c) as [(wal & img & Hv)|Hfail].
  - exists wal, img. split; [done|].
    rewrite (click_mint_finish _ _ _ _ Hv) in Hin.
    apply finish_log in Hin as [Hin|Hno]; [done|congruence].
  - unfold click_mint in Hin.
    destruct (handleMint_rejects ctx c Hfail) as [Hrun|Hrun];
      rewrite Hrun in Hin; simpl in Hin; elem_cases Hin; by subst.
Qed.

(** The success toast is shown exactly when the [try] block completes. *)
Lemma success_toast_iff ctx c wal img :
  validated ctx c wal img →
  (∃ σ, run_attempt w wal img c = Returned () σ) ↔
  (∃ signer, toast_call (minted_successfully signer)
               ∈ log (final (click_mint w ctx c))).
Proof.
  intros Hv. rewrite (click_mint_finish _ _ _ _ Hv). split.
  - intros [σ Hrun]. rewrite Hrun.
    apply attempt_returned_inv in Hrun
      as (r1 & r2 & signer & builder & tx & sig & Hinv).
    cbv zeta in Hinv. destruct Hinv as (_&_&_&_&_&_&_& Hlog).
    exists signer. simpl. rewrite Hlog. apply list_elem_of_lookup. by exists 5.
  - intros [signer Hin].
    destruct (run_attempt w wal img c) as [[] σ|e σ] eqn:Hrun; [by exists σ|].
    exfalso. simpl in Hin.
    apply attempt_threw_inv in Hrun as (_&_&_&_&_&_& Hnone).
    apply elem_of_app in Hin as [Hin|Hin]; [|elem_cases Hin].
    apply list_elem_of_In in Hin.
    assert (In (toast_call (minted_successfully signer))
              (List.filter is_toast (log σ))) as Hf
      by (apply List.filter_In; by split).
    by rewrite Hnone in Hf.
Qed.

(** C1 (as the code has it): the JSON document that a mint attempt uploads
    has exactly the four fields name, description, symbol and image; the
    first three are the form's values and image is the retrieval URL built
    from the answer to the image upload.  It has no attributes field. *)
Theorem metadata_document_fields ctx c url (doc : gmap string string) headers :
  axios_post_call url (JsonBody doc) headers
    ∈ log (final (click_mint w ctx c)) →
  ∃ img r1,
    image c = Some img ∧ image_upload w img = inr r1 ∧
    dom doc = ({[ "name"; "description"; "symbol"; "image" ]} : gset string) ∧
    doc !! "name" = Some (name c) ∧
    doc !! "description" = Some (description c) ∧
    doc !! "symbol" = Some (symbol c) ∧
    doc !! "image" = Some (gateway +:+ IpfsHash r1) ∧
    doc !! "attributes" = None.
Proof.
  intros Hin.
  apply click_mint_log in Hin as (wal & img & Hv & Hin); [|done].
  apply attempt_json_inv in Hin as (r1 & Hr1 & ->).
  exists img, r1.
  destruct (metadata_lookup c (gateway +:+ IpfsHash r1)) as (?&?&?&?).
  split; [apply Hv|]. split; [done|]. split; [apply metadata_dom|].
  split_and!; [done|done|done|done|].
  apply not_elem_of_dom. rewrite metadata_dom.
  rewrite !elem_of_union, !elem_of_singleton. intuition discriminate.
Qed.

(** C3: a run whose [try] block completes makes exactly three network
    calls, in this order: the upload of the image file, the upload of the
    metadata JSON, and one on-chain submission. *)
Theorem successful_run_network_calls ctx c wal img σ :
  validated ctx c wal img →
  run_attempt w wal img c = Returned () σ →
  ∃ r1 builder,
    image_upload w img = inr r1 ∧
    List.filter is_network_call (log (final (click_mint w ctx c)))
    = [ axios_post_call pinFileToIPFS (FormData [("file", img)])
          (pinata_headers (PINATA_API_KEY w) (PINATA_SECRET_API_KEY w)
             "multipart/form-data");
        axios_post_call pinJSONToIPFS
          (JsonBody (build_metadata c (gateway +:+ IpfsHash r1)))
          (pinata_headers (PINATA_API_KEY w) (PINATA_SECRET_API_KEY w)
             "application/json");
        sendAndConfirm_call builder (configure_umi (useCore c) wal) ].
Proof.
  intros Hv Hrun.
  rewrite (click_mint_finish _ _ _ _ Hv), finish_filter by done.
  rewrite Hrun.
  apply attempt_returned_inv in Hrun
    as (r1 & r2 & signer & builder & tx & sig & Hlog).
  cbv zeta in Hlog. destruct Hlog as (Hr1 & _ & _ & _ & _ & _ & _ & Hlog).
  exists r1, builder. split; [done|].
  simpl. by rewrite Hlog.
Qed.



(** C6: after a run whose [try] block completes, name, symbol and
    description are the empty string and the image is null; the store holds
    the retrieval URLs of the two uploads, each the Pinata gateway prefix
    followed by the hash the upload answered, and as transaction reference
    the Solana explorer URL of the decoded signature on devnet; the mode
    flag is as submitted. *)
Theorem success_clears_form_and_stores_links ctx c wal img σ :
  validated ctx c wal img →
  run_attempt w wal img c = Returned () σ →
  ∃ r1 r2 builder tx sig,
    image_upload w img = inr r1 ∧
    metadata_upload w c ("https://gateway.pinata.cloud/ipfs/" +:+ IpfsHash r1)
    = inr r2 ∧
    sendAndConfirm w builder (configure_umi (useCore c) wal) = inr tx ∧
    base58_deserialize w (signature tx) = inr sig ∧
    store (final (click_mint w ctx c))
    = {| name := ""; symbol := ""; description := ""; image := None;
         isMinting := false;
         transactionLink :=
           "https://explorer.solana.com/tx/" +:+ sig.1 +:+ "?cluster=devnet";
         metadataUri := "https://gateway.pinata.cloud/ipfs/" +:+ IpfsHash r2;
         imageUrl := "https://gateway.pinata.cloud/ipfs/" +:+ IpfsHash r1;
         useCore := useCore c |}.
Proof.
  intros Hv Hrun. rewrite (click_mint_finish _ _ _ _ Hv), Hrun.
  apply attempt_returned_inv in Hrun
    as (r1 & r2 & signer & builder & tx & sig & Hinv).
  cbv zeta in Hinv.
  destruct Hinv as (Hr1 & Hr2 & _ & Htx & Hsig & _ & Hstore & _).
  rewrite explorer_link_literal, !gateway_literal in Hstore.
  rewrite gateway_literal in Hr2.
  exists r1, r2, builder, tx, sig. repeat split; try done.
  simpl. by rewrite Hstore.
Qed.

(** C8: when the [try] block throws, the store after the handler has the
    name, symbol, description, image and mode flag of the submission. *)
Theorem failure_keeps_form ctx c wal img (e : Exn) σ :
  validated ctx c wal img →
  run_attempt w wal img c = Threw e σ →
  let s' := store (final (click_mint w ctx c)) in
  name s' = name c ∧ symbol s' = symbol c ∧
  description s' = description c ∧ image s' = image c ∧
  useCore s' = useCore c.
Proof.
  intros Hv Hrun. rewrite (click_mint_finish _ _ _ _ Hv), Hrun.
  apply attempt_threw_inv in Hrun as (?&?&?&?&?&_).
  by simpl.
Qed.

(** C10: when the [try] block throws after the on-chain submission was
    started, the store after the handler holds the retrieval URLs of the two
    fresh uploads, next to the transaction link it had before; when that
    link is not empty the result block renders the old link with the new
    URLs. *)
Theorem onchain_failure_keeps_uploaded_links ctx c wal img (e : Exn) σ
  builder umi :
  validated ctx c wal img →
  run_attempt w wal img c = Threw e σ →
  sendAndConfirm_call builder umi ∈ log σ →
  ∃ r1 r2,
    image_upload w img = inr r1 ∧
    metadata_upload w c (gateway +:+ IpfsHash r1) = inr r2 ∧
    let s' := store (final (click_mint w ctx c)) in
    imageUrl s' = gateway +:+ IpfsHash r1 ∧
    metadataUri s' = gateway +:+ IpfsHash r2 ∧
    transactionLink s' = transactionLink c ∧
    (transactionLink c ≠ "" →
     rendered_details s'
     = Some (transactionLink c, gateway +:+ IpfsHash r1,
             gateway +:+ IpfsHash r2)).
Proof.
  intros Hv Hrun Hin.
  pose proof (attempt_onchain_inv wal img c builder umi) as Hinv.
  pose proof (attempt_threw_inv _ _ _ _ _ Hrun) as (_&_&_&_&_& Hlink &_).
  rewrite (click_mint_finish _ _ _ _ Hv). rewrite Hrun in *.
  simpl in Hinv. destruct (Hinv Hin) as (_ & _ & _ & r1 & r2 & ?&?& Hi & Hm).
  exists r1, r2. simpl. repeat split; try done.
  intros Hne. unfold rendered_details. simpl.
  rewrite Hlink, Hi, Hm. apply truthy_nonempty in Hne. by rewrite Hne.
Qed.

End Runs.

(** *** The statements at concrete inputs *)

Lemma demo_validated :
  validated Demo.connected Demo.form Demo.phantom Demo.ape_png.
Proof. unfold validated. simpl. split_and!; eauto; discriminate. Defined.

(** C1 (as stated): the document uploaded by a filled form on a run where
    every call answers does not have the five fields of the claim: its
    fields are not name, description, symbol, image and attributes. *)
Lemma metadata_document_five_fields_counterexample :
  ¬ (∀ doc headers,
       axios_post_call pinJSONToIPFS (JsonBody doc) headers
         ∈ log (final (click_mint Demo.happy Demo.connected Demo.form)) →
       dom doc
       = ({[ "name"; "description"; "symbol"; "image"; "attributes" ]}
            : gset string)).
Proof.
  intros Hfive.
  specialize (Hfive (build_metadata Demo.form (gateway +:+ "QmImage"))
                (pinata_headers (Some "key") (Some "secret") "application/json")).
  assert ("attributes" ∈ dom (build_metadata Demo.form (gateway +:+ "QmImage")))
    as Hin.
  { rewrite Hfive.
    - rewrite !elem_of_union, !elem_of_singleton. tauto.
    - apply list_elem_of_lookup. exists 2. vm_compute. reflexivity. }
  rewrite metadata_dom in Hin.
  rewrite !elem_of_union, !elem_of_singleton in Hin. intuition discriminate.
Qed.

Lemma metadata_document_fields_witness :
  axios_post_call pinJSONToIPFS
    (JsonBody (build_metadata Demo.form (gateway +:+ "QmImage")))
    (pinata_headers (Some "key") (Some "secret") "application/json")
    ∈ log (final (click_mint Demo.happy Demo.connected Demo.form)) ∧
  ∃ img r1,
    image Demo.form = Some img ∧ image_upload Demo.happy img = inr r1 ∧
    dom (build_metadata Demo.form (gateway +:+ "QmImage"))
    = ({[ "name"; "description"; "symbol"; "image" ]} : gset string) ∧
    build_metadata Demo.form (gateway +:+ "QmImage") !! "name"
    = Some (name Demo.form) ∧
    build_metadata Demo.form (gateway +:+ "QmImage") !! "description"
    = Some (description Demo.form) ∧
    build_metadata Demo.form (gateway +:+ "QmImage") !! "symbol"
    = Some (symbol Demo.form) ∧
    build_metadata Demo.form (gateway +:+ "QmImage") !! "image"
    = Some (gateway +:+ IpfsHash r1) ∧
    build_metadata Demo.form (gateway +:+ "QmImage") !! "attributes" = None.
Proof.
  assert (axios_post_call pinJSONToIPFS
            (JsonBody (build_metadata Demo.form (gateway +:+ "QmImage")))
            (pinata_headers (Some "key") (Some "secret") "application/json")
            ∈ log (final (click_mint Demo.happy Demo.connected Demo.form)))
    as Hin.
  { apply list_elem_of_lookup. exists 2. vm_compute. reflexivity. }
  split; [exact Hin|].
  exact (metadata_document_fields Demo.happy Demo.connected Demo.form
           _ _ _ Hin).
Defined.

Lemma handleMint_precondition_failure_witness :
  (precondition_fails Demo.connected Demo.form_without_name ∧
   ∃ t, (t = wallet_not_connected ∨ t = missing_information) ∧
        variant t = Some "destructive" ∧
        handleMint Demo.happy Demo.connected Demo.form_without_name
          {| store := Demo.form_without_name; log := [] |}
        = Returned ()
            {| store := Demo.form_without_name; log := [] ++ [toast_call t] |} ∧
        List.filter is_network_call
          (log (final (handleMint Demo.happy Demo.connected
                         Demo.form_without_name
                         {| store := Demo.form_without_name; log := [] |})))
        = List.filter is_network_call []) ∧
  (precondition_fails Demo.disconnected Demo.form ∧
   ∃ t, (t = wallet_not_connected ∨ t = missing_information) ∧
        variant t = Some "destructive" ∧
        handleMint Demo.happy Demo.disconnected Demo.form
          {| store := Demo.form; log := [] |}
        = Returned () {| store := Demo.form; log := [] ++ [toast_call t] |} ∧
        List.filter is_network_call
          (log (final (handleMint Demo.happy Demo.disconnected Demo.form
                         {| store := Demo.form; log := [] |})))
        = List.filter is_network_call []).
Proof.
  assert (precondition_fails Demo.connected Demo.form_without_name) as Hname.
  { right. right. left. reflexivity. }
  assert (precondition_fails Demo.disconnected Demo.form) as Hwallet.
  { left. reflexivity. }
  split; (split; [assumption|]).
  - exact (handleMint_precondition_failure Demo.happy Demo.connected
             Demo.form_without_name
             {| store := Demo.form_without_name; log := [] |} Hname).
  - exact (handleMint_precondition_failure Demo.happy Demo.disconnected
             Demo.form {| store := Demo.form; log := [] |} Hwallet).
Defined.

Lemma demo_happy_returns :
  ∃ σ, run_attempt Demo.happy Demo.phantom Demo.ape_png Demo.form
       = Returned () σ.
Proof. eexists. vm_compute. reflexivity. Defined.

Lemma demo_rejecting_throws :
  ∃ σ, run_attempt Demo.rejecting Demo.phantom Demo.ape_png Demo.form
       = Threw ChainRejected σ ∧
       sendAndConfirm_call
         (create (configure_umi true Demo.phantom)
            {| asset := {| signer_publicKey := "As5et" |};
               core_name := "Ape";
               core_uri := gateway +:+ "QmMeta" |})
         (configure_umi true Demo.phantom) ∈ log σ.
Proof.
  eexists. split; [vm_compute; reflexivity|].
  apply list_elem_of_lookup. exists 4. vm_compute. reflexivity.
Defined.


Lemma successful_run_network_calls_witness :
  validated Demo.connected Demo.form Demo.phantom Demo.ape_png ∧
  (∃ σ, run_attempt Demo.happy Demo.phantom Demo.ape_png Demo.form
        = Returned () σ) ∧
  ∃ r1 builder,
    image_upload Demo.happy Demo.ape_png = inr r1 ∧
    List.filter is_network_call
      (log (final (click_mint Demo.happy Demo.connected Demo.form)))
    = [ axios_post_call pinFileToIPFS (FormData [("file", Demo.ape_png)])
          (pinata_headers (PINATA_API_KEY Demo.happy)
             (PINATA_SECRET_API_KEY Demo.happy) "multipart/form-data");
        axios_post_call pinJSONToIPFS
          (JsonBody (build_metadata Demo.form (gateway +:+ IpfsHash r1)))
          (pinata_headers (PINATA_API_KEY Demo.happy)
             (PINATA_SECRET_API_KEY Demo.happy) "application/json");
        sendAndConfirm_call builder
          (configure_umi (useCore Demo.form) Demo.phantom) ].
Proof.
  split; [exact demo_validated|]. split; [exact demo_happy_returns|].
  destruct demo_happy_returns as [σ Hrun].
  exact (successful_run_network_calls Demo.happy Demo.connected Demo.form
           Demo.phantom Demo.ape_png σ demo_validated Hrun).
Defined.



Lemma success_clears_form_and_stores_links_witness :
  validated Demo.connected Demo.form Demo.phantom Demo.ape_png ∧
  (∃ σ, run_attempt Demo.happy Demo.phantom Demo.ape_png Demo.form
        = Returned () σ) ∧
  store (final (click_mint Demo.happy Demo.connected Demo.form))
  = {| name := ""; symbol := ""; description := ""; image := None;
       isMinting := false;
       transactionLink := "https://explorer.solana.com/tx/5ig?cluster=devnet";
       metadataUri := "https://gateway.pinata.cloud/ipfs/QmMeta";
       imageUrl := "https://gateway.pinata.cloud/ipfs/QmImage";
       useCore := true |}.
Proof.
  split; [exact demo_validated|]. split; [exact demo_happy_returns|].
  destruct demo_happy_returns as [σ Hrun].
  destruct (success_clears_form_and_stores_links Demo.happy Demo.connected
              Demo.form Demo.phantom Demo.ape_png σ demo_validated Hrun)
    as (r1 & r2 & builder & tx & sig & Hr1 & Hr2 & _ & Hsig & Hstore).
  rewrite Hstore.
  vm_compute in Hr1. injection Hr1 as <-.
  vm_compute in Hr2. injection Hr2 as <-.
  vm_compute in Hsig. injection Hsig as <-.
  vm_compute. reflexivity.
Defined.

Lemma failure_keeps_form_witness :
  validated Demo.connected Demo.form Demo.phantom Demo.ape_png ∧
  (∃ σ, run_attempt Demo.rejecting Demo.phantom Demo.ape_png Demo.form
        = Threw ChainRejected σ) ∧
  let s' := store (final (click_mint Demo.rejecting Demo.connected Demo.form)) in
  name s' = "Ape" ∧ symbol s' = "APE" ∧ description s' = "An ape" ∧
  image s' = Some Demo.ape_png ∧ useCore s' = true.
Proof.
  split; [exact demo_validated|].
  destruct demo_rejecting_throws as (σ & Hrun & _).
  split; [by exists σ|].
  exact (failure_keeps_form Demo.rejecting Demo.connected Demo.form
           Demo.phantom Demo.ape_png ChainRejected σ demo_validated Hrun).
Defined.

Lemma onchain_failure_keeps_uploaded_links_witness :
  validated Demo.connected Demo.form Demo.phantom Demo.ape_png ∧
  ∃ r1 r2,
    image_upload Demo.rejecting Demo.ape_png = inr r1 ∧
    metadata_upload Demo.rejecting Demo.form (gateway +:+ IpfsHash r1)
    = inr r2 ∧
    let s' :=
      store (final (click_mint Demo.rejecting Demo.connected Demo.form)) in
    imageUrl s' = gateway +:+ IpfsHash r1 ∧
    metadataUri s' = gateway +:+ IpfsHash r2 ∧
    transactionLink s' = transactionLink Demo.form ∧
    (transactionLink Demo.form ≠ "" →
     rendered_details s'
     = Some (transactionLink Demo.form, gateway +:+ IpfsHash r1,
             gateway +:+ IpfsHash r2)).
Proof.
  split; [exact demo_validated|].
  destruct demo_rejecting_throws as (σ & Hrun & Hin).
  exact (onchain_failure_keeps_uploaded_links Demo.rejecting Demo.connected
           Demo.form Demo.phantom Demo.ape_png ChainRejected σ _ _
           demo_validated Hrun Hin).
Defined.

End NFTMinterFacts.

(* ===================================================================== *)
(** ** Further properties of the attribute list *)
(* ===================================================================== *)

Module AttributeEditFacts.
Import AttributeList.

(** The filter keeps a sublist, whatever the callback. *)
Lemma filter_from_sublist {A : Type} (cb : A → nat → bool) (k : nat)
  (l : list A) :
  filter_from cb k l `sublist_of` l.
Proof.
  revert k. induction l as [|x l IH]; intros k; simpl; [done|].
  destruct (cb x k); [by apply sublist_skip|by apply sublist_cons].
Qed.

(** X1: adding an attribute and then removing the row that was added gives
    back the list one started from. *)
Theorem add_then_remove_added (attributes : list Attribute) :
  handleRemoveAttribute (handleAddAttribute attributes)
    (Z.of_nat (length attributes))
  = attributes.
Proof.
  unfold handleRemoveAttribute, handleAddAttribute, Array_filter.
  set (added := {| trait_type := ""; value := "" |}).
  change (Z.of_nat (length attributes))
    with (Z.of_nat (0 + length attributes)).
  rewrite (AttributeListFacts.filter_from_hit (attributes ++ [added]) 0
             (length attributes))
    by (rewrite length_app; simpl; lia).
  rewrite take_app_length.
  rewrite drop_app_ge by lia.
  replace (S (length attributes) - length attributes) with 1 by lia.
  simpl. apply app_nil_r.
Qed.

End AttributeEditFacts.

Module AttributeObjectsFacts.
Import AttributeObjects.

Implicit Types (heap : gmap nat (gmap string string)) (attributes : list nat).
Implicit Types (object : gmap string string) (index : Z) (key value : string).

Lemma element_nat {A : Type} (array : list A) (i : nat) :
  element array (Z.of_nat i) = array !! i.
Proof.
  unfold element. destruct (Z.ltb_spec (Z.of_nat i) 0) as [?|_]; [lia|].
  by rewrite Nat2Z.id.
Qed.

Lemma element_None {A : Type} (array : list A) index :
  element array index = None ↔
  (index < 0 ∨ Z.of_nat (length array) ≤ index)%Z.
Proof.
  unfold element. destruct (Z.ltb_spec index 0) as [Hneg|Hpos].
  - split; [by left|done].
  - rewrite lookup_ge_None. lia.
Qed.

Lemma row_Some heap attributes i object :
  row heap attributes i = Some object ↔
  ∃ ref, attributes !! i = Some ref ∧ heap !! ref = Some object.
Proof.
  unfold row. destruct (attributes !! i) as [ref|]; simpl.
  - split; [by exists ref|]. by intros (? & [= <-] & ?).
  - split; [done|]. by intros (? & ? & _).
Qed.

(** X2: editing a property outside the array throws, and only then: the
    handler returns no new state exactly when the index is negative or at
    least the length of the array. *)
Theorem handleAttributeChange_throws_iff heap attributes index key value :
  handleAttributeChange heap attributes index key value = None ↔
  (index < 0 ∨ Z.of_nat (length attributes) ≤ index)%Z.
Proof.
  unfold handleAttributeChange. rewrite <- element_None.
  destruct (element attributes index); [split; intros; discriminate|done].
Qed.

Lemma assign_own_key key value object :
  key ≠ "__proto__" → assign key value object = <[key := value]> object.
Proof.
  intros Hkey. unfold assign.
  by destruct (String.eqb_spec key "__proto__").
Qed.

(** A write at ["__proto__"] changes no row. *)
Lemma handleAttributeChange_proto heap attributes (i : nat) value :
  i < length attributes →
  ∃ heap',
    handleAttributeChange heap attributes (Z.of_nat i) "__proto__" value
    = Some (heap', attributes) ∧
    ∀ j, row heap' attributes j = row heap attributes j.
Proof.
  intros [ref Hi]%lookup_lt_is_Some. unfold handleAttributeChange.
  rewrite element_nat, Hi. eexists. split; [reflexivity|].
  intros j. unfold row.
  destruct (attributes !! j) as [ref'|]; simpl; [|done].
  rewrite lookup_alter. case_decide; [|done].
  subst. by destruct (heap !! ref').
Qed.

(** X3: when the entries refer to distinct objects, editing property [key]
    of row [i], for any key other than ["__proto__"] (the component passes
    ["trait_type"] and ["value"]), hands to [setAttributes] an array of the
    same references in which row [i] reads the object with [key] set to
    [value] and every other row reads what it read before.  The write is in
    place: the array of the previous state reads the same. *)
Theorem handleAttributeChange_row heap attributes (i : nat) key value object :
  key ≠ "__proto__" →
  NoDup attributes →
  row heap attributes i = Some object →
  ∃ heap',
    handleAttributeChange heap attributes (Z.of_nat i) key value
    = Some (heap', attributes) ∧
    row heap' attributes i = Some (<[key := value]> object) ∧
    ∀ j, j ≠ i → row heap' attributes j = row heap attributes j.
Proof.
  intros Hkey Hnodup (ref & Hi & Href)%row_Some.
  unfold handleAttributeChange. rewrite element_nat, Hi.
  eexists. split; [reflexivity|]. split.
  - apply row_Some. exists ref. split; [done|].
    by rewrite lookup_alter_eq, Href, <- (assign_own_key _ _ _ Hkey).
  - intros j Hj. unfold row.
    destruct (attributes !! j) as [ref'|] eqn:Hj'; simpl; [|done].
    apply lookup_alter_ne. intros ->.
    apply Hj. by eapply NoDup_lookup.
Qed.

Lemma handleAttributeChange_row_witness :
  "value" ≠ "__proto__" ∧
  NoDup DemoObjects.attributes ∧
  row DemoObjects.heap DemoObjects.attributes 1 = Some DemoObjects.eyes ∧
  ∃ heap',
    handleAttributeChange DemoObjects.heap DemoObjects.attributes 1
      "value" "x-ray"
    = Some (heap', DemoObjects.attributes) ∧
    row heap' DemoObjects.attributes 1
    = Some (<["value" := "x-ray"]> DemoObjects.eyes) ∧
    ∀ j, j ≠ 1 →
         row heap' DemoObjects.attributes j
         = row DemoObjects.heap DemoObjects.attributes j.
Proof.
  assert ("value" ≠ "__proto__") as Hkey by discriminate.
  assert (NoDup DemoObjects.attributes) as Hnodup.
  { unfold DemoObjects.attributes.
    apply NoDup_cons. split; [|apply NoDup_singleton].
    rewrite list_elem_of_singleton. lia. }
  assert (row DemoObjects.heap DemoObjects.attributes 1
          = Some DemoObjects.eyes) as Hrow.
  { vm_compute. reflexivity. }
  split; [exact Hkey|]. split; [exact Hnodup|]. split; [exact Hrow|].
  exact (handleAttributeChange_row DemoObjects.heap DemoObjects.attributes 1
           "value" "x-ray" DemoObjects.eyes Hkey Hnodup Hrow).
Defined.

(** X4: when two rows hold the same reference, an edit of one row, at any
    key other than ["__proto__"], shows in the other row as well. *)
Theorem handleAttributeChange_shared heap attributes (i j : nat) ref key value
  object :
  key ≠ "__proto__" →
  attributes !! i = Some ref →
  attributes !! j = Some ref →
  heap !! ref = Some object →
  ∃ heap',
    handleAttributeChange heap attributes (Z.of_nat i) key value
    = Some (heap', attributes) ∧
    row heap' attributes j = Some (<[key := value]> object).
Proof.
  intros Hkey Hi Hj Href. unfold handleAttributeChange.
  rewrite element_nat, Hi. eexists. split; [reflexivity|].
  apply row_Some. exists ref. split; [done|].
  by rewrite lookup_alter_eq, Href, <- (assign_own_key _ _ _ Hkey).
Qed.

Lemma handleAttributeChange_shared_witness :
  "value" ≠ "__proto__" ∧
  [0; 0] !! 0 = Some 0 ∧ [0; 0] !! 1 = Some 0 ∧
  DemoObjects.heap !! 0 = Some DemoObjects.fur ∧
  ∃ heap',
    handleAttributeChange DemoObjects.heap [0; 0] 0 "value" "silver"
    = Some (heap', [0; 0]) ∧
    row heap' [0; 0] 1 = Some (<["value" := "silver"]> DemoObjects.fur).
Proof.
  assert ("value" ≠ "__proto__") as Hkey by discriminate.
  assert (DemoObjects.heap !! 0 = Some DemoObjects.fur) as Href.
  { vm_compute. reflexivity. }
  split; [exact Hkey|].
  split; [reflexivity|]. split; [reflexivity|]. split; [exact Href|].
  exact (handleAttributeChange_shared DemoObjects.heap [0; 0] 0 1 0
           "value" "silver" DemoObjects.fur Hkey eq_refl eq_refl Href).
Defined.

Lemma fresh_not_among heap attributes :
  (∀ ref, ref ∈ attributes → is_Some (heap !! ref)) →
  fresh (dom heap) ∉ attributes.
Proof.
  intros Hlive Hin. apply (is_fresh (dom heap)).
  apply elem_of_dom. by apply Hlive.
Qed.

(** X5: adding an attribute appends one row that reads the blank object
    and leaves what every earlier row reads as it was, provided the entries
    refer to existing objects. *)
Theorem handleAddAttribute_rows heap attributes :
  (∀ ref, ref ∈ attributes → is_Some (heap !! ref)) →
  let heap' := (handleAddAttribute heap attributes).1 in
  let attributes' := (handleAddAttribute heap attributes).2 in
  length attributes' = S (length attributes) ∧
  row heap' attributes' (length attributes) = Some blank ∧
  ∀ j, j < length attributes →
       row heap' attributes' j = row heap attributes j.
Proof.
  intros Hlive. simpl. split; [|split].
  - rewrite length_app. simpl. lia.
  - apply row_Some. exists (fresh (dom heap)). split.
    + rewrite lookup_app_r by lia. by rewrite Nat.sub_diag.
    + apply lookup_insert_eq.
  - intros j Hj. unfold row. rewrite lookup_app_l by done.
    destruct (attributes !! j) as [ref|] eqn:Hlook; simpl; [|done].
    apply lookup_insert_ne. intros <-.
    apply (fresh_not_among heap attributes Hlive).
    by eapply list_elem_of_lookup_2.
Qed.

Lemma handleAddAttribute_rows_witness :
  (∀ ref, ref ∈ DemoObjects.attributes →
          is_Some (DemoObjects.heap !! ref)) ∧
  let heap' :=
    (handleAddAttribute DemoObjects.heap DemoObjects.attributes).1 in
  let attributes' :=
    (handleAddAttribute DemoObjects.heap DemoObjects.attributes).2 in
  length attributes' = S (length DemoObjects.attributes) ∧
  row heap' attributes' (length DemoObjects.attributes) = Some blank ∧
  ∀ j, j < length DemoObjects.attributes →
       row heap' attributes' j
       = row DemoObjects.heap DemoObjects.attributes j.
Proof.
  assert (∀ ref, ref ∈ DemoObjects.attributes →
                 is_Some (DemoObjects.heap !! ref)) as Hlive.
  { intros ref Hin. unfold DemoObjects.attributes in Hin.
    apply elem_of_cons in Hin as [->|Hin]; [by eexists|].
    apply list_elem_of_singleton in Hin as ->. by eexists. }
  split; [exact Hlive|].
  exact (handleAddAttribute_rows DemoObjects.heap DemoObjects.attributes
           Hlive).
Defined.

(** X6: the three handlers keep the entries distinct and live: after an
    add, after an edit that returns, and after a removal at any index, every
    entry still refers to an existing object of its own. *)
Theorem handlers_keep_distinct_live heap attributes index key value :
  distinct_live heap attributes →
  distinct_live (handleAddAttribute heap attributes).1
    (handleAddAttribute heap attributes).2 ∧
  (∀ heap' attributes',
     handleAttributeChange heap attributes index key value
     = Some (heap', attributes') →
     distinct_live heap' attributes') ∧
  distinct_live (handleRemoveAttribute heap attributes index).1
    (handleRemoveAttribute heap attributes index).2.
Proof.
  intros [Hnodup Hlive]. split; [|split].
  - simpl. split.
    + apply NoDup_app. split; [done|]. split; [|apply NoDup_singleton].
      intros ref Hin ->%list_elem_of_singleton.
      by apply (fresh_not_among heap attributes Hlive).
    + intros ref [Hin| ->%list_elem_of_singleton]%elem_of_app.
      * destruct (decide (fresh (dom heap) = ref)) as [<-|Hne].
        -- rewrite lookup_insert_eq. by eexists.
        -- rewrite lookup_insert_ne by done. by apply Hlive.
      * rewrite lookup_insert_eq. by eexists.
  - intros heap' attributes' Hedit. unfold handleAttributeChange in Hedit.
    destruct (element attributes index) as [ref|]; [|done].
    injection Hedit as <- <-. split; [done|].
    intros ref' Hin. destruct (Hlive ref' Hin) as [object Hobj].
    destruct (decide (ref = ref')) as [<-|Hne].
    + rewrite lookup_alter_eq, Hobj. by eexists.
    + rewrite lookup_alter_ne by done. by eexists.
  - simpl. unfold AttributeList.Array_filter.
    pose proof (AttributeEditFacts.filter_from_sublist
                  (λ (_ : nat) i, negb (Z.of_nat i =? index)%Z) 0 attributes)
      as Hsub.
    split; [by eapply sublist_NoDup|].
    intros ref Hin. apply Hlive.
    by eapply elem_of_sublist.
Qed.

Lemma handlers_keep_distinct_live_witness :
  distinct_live DemoObjects.heap DemoObjects.attributes ∧
  distinct_live
    (handleAddAttribute DemoObjects.heap DemoObjects.attributes).1
    (handleAddAttribute DemoObjects.heap DemoObjects.attributes).2 ∧
  (∀ heap' attributes',
     handleAttributeChange DemoObjects.heap DemoObjects.attributes 0
       "value" "silver"
     = Some (heap', attributes') →
     distinct_live heap' attributes') ∧
  distinct_live
    (handleRemoveAttribute DemoObjects.heap DemoObjects.attributes 0).1
    (handleRemoveAttribute DemoObjects.heap DemoObjects.attributes 0).2.
Proof.
  assert (distinct_live DemoObjects.heap DemoObjects.attributes) as Hwf.
  { unfold DemoObjects.attributes. split.
    - apply NoDup_cons. split; [|apply NoDup_singleton].
      rewrite list_elem_of_singleton. lia.
    - intros ref Hin.
      apply elem_of_cons in Hin as [->|Hin]; [by eexists|].
      apply list_elem_of_singleton in Hin as ->. by eexists. }
  split; [exact Hwf|].
  exact (handlers_keep_distinct_live DemoObjects.heap DemoObjects.attributes
           0 "value" "silver" Hwf).
Defined.

End AttributeObjectsFacts.

(* ===================================================================== *)
(** ** Further properties of the mint handler and of the other handlers *)
(* ===================================================================== *)

Module MinterFlowFacts.
Import NFTMinter MinterView NFTMinterFacts.

(** The metadata object depends on the form through three fields only. *)
Lemma build_metadata_same_form (s c : State) :
  name s = name c → symbol s = symbol c → description s = description c →
  build_metadata s = build_metadata c.
Proof.
  intros Hname Hsymbol Hdescription.
  unfold build_metadata. by rewrite Hname, Hsymbol, Hdescription.
Qed.

#[local] Opaque build_metadata gateway pinFileToIPFS pinJSONToIPFS.

Section Flows.

Variable w : World.
Implicit Types (ctx : WalletContext) (c s : State) (wal : Wallet) (img : File).

(** *** The handler as a whole *)

(** X7: a click on the mint button never throws: whatever the world
    answers, the handler returns, the submitting flag is false afterwards
    and the button reads "Mint NFT" again, provided the flag was false when
    the button was clicked. *)
Theorem click_mint_returns_idle ctx c :
  isMinting c = false →
  ∃ σ, click_mint w ctx c = Returned () σ ∧
       isMinting (store σ) = false ∧
       mint_button_label (store σ) = "Mint NFT" ∧
       mint_button_disabled ctx (store σ) = mint_button_disabled ctx c.
Proof.
  intros Hidle. unfold mint_button_label, mint_button_disabled.
  destruct (validated_or_fails ctx c) as [(wal & img & Hv)|Hfail].
  - rewrite (click_mint_finish _ _ _ _ _ Hv), Hidle.
    destruct (run_attempt w wal img c) as [[] σ|e σ]; simpl;
      eexists; (split; [reflexivity|]); simpl; by destruct (publicKey ctx).
  - unfold click_mint.
    destruct (handleMint_rejects w ctx c Hfail) as [-> | ->];
      eexists; (split; [reflexivity|]); simpl; by rewrite Hidle.
Qed.

(** X8: when the image upload fails, it is the only network call of the
    run: the metadata upload and the on-chain submission are not attempted,
    the thrown value goes to [console.error], and the store ends as it was
    at the click (with the submitting flag false). *)
Theorem image_upload_failure_stops_run ctx c wal img (e : Exn) :
  validated ctx c wal img →
  image_upload w img = inl e →
  click_mint w ctx c
  = Returned ()
      {| store := with_isMinting false c;
         log := [ axios_post_call pinFileToIPFS (FormData [("file", img)])
                    (pinata_headers (PINATA_API_KEY w)
                       (PINATA_SECRET_API_KEY w) "multipart/form-data");
                  console_error "Error minting NFT:" e;
                  toast_call error_minting ] |}.
Proof.
  intros Hv Himg. rewrite (click_mint_finish _ _ _ _ _ Hv).
  unfold image_upload in Himg. unfold_run. by rewrite Himg.
Qed.

(** X9: when the metadata upload fails after the image upload answered,
    the run ends after these two requests, without an on-chain submission;
    the store keeps the retrieval URL of the uploaded image (the upload is
    not undone) and is otherwise as it was at the click. *)
Theorem metadata_upload_failure_keeps_image_url ctx c wal img r1 (e : Exn) :
  validated ctx c wal img →
  image_upload w img = inr r1 →
  metadata_upload w c (gateway +:+ IpfsHash r1) = inl e →
  click_mint w ctx c
  = Returned ()
      {| store := with_isMinting false
                    (with_imageUrl (gateway +:+ IpfsHash r1) c);
         log := [ axios_post_call pinFileToIPFS (FormData [("file", img)])
                    (pinata_headers (PINATA_API_KEY w)
                       (PINATA_SECRET_API_KEY w) "multipart/form-data");
                  console_log "Image uploaded to IPFS at:"
                    (gateway +:+ IpfsHash r1);
                  axios_post_call pinJSONToIPFS
                    (JsonBody (build_metadata c (gateway +:+ IpfsHash r1)))
                    (pinata_headers (PINATA_API_KEY w)
                       (PINATA_SECRET_API_KEY w) "application/json");
                  console_error "Error minting NFT:" e;
                  toast_call error_minting ] |}.
Proof.
  intros Hv Himg Hjson. rewrite (click_mint_finish _ _ _ _ _ Hv).
  unfold image_upload in Himg. unfold metadata_upload in Hjson.
  unfold_run. by rewrite Himg, Hjson.
Qed.

(** *** What is submitted, and what is shown afterwards *)

Lemma attempt_builder_inv wal img c builder umi :
  sendAndConfirm_call builder umi ∈ log (final (run_attempt w wal img c)) →
  ∃ r1 r2 signer,
    umi = configure_umi (useCore c) wal ∧
    image_upload w img = inr r1 ∧
    metadata_upload w c (gateway +:+ IpfsHash r1) = inr r2 ∧
    generateSigner w umi = inr signer ∧
    builder_name builder = name c ∧
    builder_uri builder = gateway +:+ IpfsHash r2 ∧
    builder_signer builder = signer ∧
    builder_fee builder = (if useCore c then None else Some 0%N).
Proof.
  unfold image_upload, metadata_upload.
  unfold_run. split_answers; intros H; elem_cases H; simplify_eq.
  all: eexists _, _, _; simpl; rewrite metadata_name.
  all: by split_and!.
Qed.

Lemma attempt_returned_toast wal img c σ :
  run_attempt w wal img c = Returned () σ →
  ∃ builder,
    sendAndConfirm_call builder (configure_umi (useCore c) wal) ∈ log σ ∧
    List.filter is_toast (log σ)
    = [toast_call (minted_successfully (builder_signer builder))].
Proof.
  unfold_run. split_answers; intros H; simplify_eq.
  all: eexists; split;
    [apply list_elem_of_lookup; exists 4; reflexivity|reflexivity].
Qed.

(** X10: a transaction is submitted only after both uploads and the signer
    generation have answered; it is given the name of the form, the
    retrieval URL of the uploaded metadata as uri, the generated signer as
    asset or mint, and, on the token-metadata path, a seller fee of zero. *)
Theorem submitted_transaction_references_metadata ctx c builder umi :
  sendAndConfirm_call builder umi ∈ log (final (click_mint w ctx c)) →
  ∃ wal img r1 r2 signer,
    wallet ctx = Some wal ∧ image c = Some img ∧
    umi = configure_umi (useCore c) wal ∧
    image_upload w img = inr r1 ∧
    metadata_upload w c (gateway +:+ IpfsHash r1) = inr r2 ∧
    generateSigner w umi = inr signer ∧
    builder_name builder = name c ∧
    builder_uri builder = gateway +:+ IpfsHash r2 ∧
    builder_signer builder = signer ∧
    builder_fee builder = (if useCore c then None else Some 0%N).
Proof.
  intros Hin.
  apply click_mint_log in Hin as (wal & img & Hv & Hin); [|done].
  apply attempt_builder_inv in Hin as (r1 & r2 & signer & Hinv).
  exists wal, img, r1, r2, signer.
  destruct Hv as (_ & Hwal & _ & _ & _ & Himg).
  destruct Hinv as (?&?&?&?&?&?&?&?). by split_and!.
Qed.

(** X11: a run whose [try] block completes shows exactly one toast, the
    success toast, and the mint address it prints is the public key of the
    signer that the submitted transaction was given as asset or mint. *)
Theorem success_toast_names_submitted_signer ctx c wal img σ :
  validated ctx c wal img →
  run_attempt w wal img c = Returned () σ →
  ∃ builder,
    sendAndConfirm_call builder (configure_umi (useCore c) wal)
      ∈ log (final (click_mint w ctx c)) ∧
    List.filter is_toast (log (final (click_mint w ctx c)))
    = [ toast_call
          {| title := "NFT minted successfully!";
             toast_description :=
               "Mint address: " +:+ signer_publicKey (builder_signer builder);
             variant := None |} ].
Proof.
  intros Hv Hrun. rewrite (click_mint_finish _ _ _ _ _ Hv), Hrun. simpl.
  by apply attempt_returned_toast in Hrun.
Qed.

(** X12: after a run whose [try] block completes, a second click on the
    mint button is refused by the guard on the fields: in any world it shows
    the "Missing information" toast, makes no call and leaves the store. *)
Theorem second_click_after_success_is_refused ctx c wal img σ (w' : World) :
  validated ctx c wal img →
  run_attempt w wal img c = Returned () σ →
  let s' := store (final (click_mint w ctx c)) in
  click_mint w' ctx s'
  = Returned () {| store := s'; log := [toast_call missing_information] |}.
Proof.
  intros Hv Hrun s'.
  assert (name s' = "") as Hname.
  { unfold s'. rewrite (click_mint_finish _ _ _ _ _ Hv), Hrun.
    apply attempt_returned_inv in Hrun
      as (r1 & r2 & signer & builder & tx & sig & Hinv).
    cbv zeta in Hinv. destruct Hinv as (_&_&_&_&_&_& Hstore &_).
    simpl. by rewrite Hstore. }
  destruct Hv as ([pk Hpk] & Hwal & _).
  unfold click_mint, handleMint. by rewrite Hpk, Hwal, Hname.
Qed.

(** X13: after a run whose [try] block completes, the result block is
    rendered, with the explorer link of the transaction signature and the
    retrieval URLs of the two uploads, whatever the signature is. *)
Theorem success_renders_three_links ctx c wal img σ :
  validated ctx c wal img →
  run_attempt w wal img c = Returned () σ →
  ∃ r1 r2 builder tx sig,
    image_upload w img = inr r1 ∧
    metadata_upload w c (gateway +:+ IpfsHash r1) = inr r2 ∧
    sendAndConfirm w builder (configure_umi (useCore c) wal) = inr tx ∧
    base58_deserialize w (signature tx) = inr sig ∧
    rendered_details (store (final (click_mint w ctx c)))
    = Some ("https://explorer.solana.com/tx/" +:+ sig.1 +:+ "?cluster=devnet",
            gateway +:+ IpfsHash r1, gateway +:+ IpfsHash r2).
Proof.
  intros Hv Hrun. rewrite (click_mint_finish _ _ _ _ _ Hv), Hrun.
  apply attempt_returned_inv in Hrun
    as (r1 & r2 & signer & builder & tx & sig & Hinv).
  cbv zeta in Hinv.
  destruct Hinv as (Hr1 & Hr2 & _ & Htx & Hsig & _ & Hstore & _).
  exists r1, r2, builder, tx, sig. split_and!; try done.
  simpl. by rewrite Hstore.
Qed.

(** X14: when the form holds no transaction link (no mint has completed
    before) and the [try] block throws, the result block is not rendered:
    whatever the failed attempt stored stays out of sight. *)
Theorem first_failure_renders_nothing ctx c wal img (e : Exn) σ :
  validated ctx c wal img →
  run_attempt w wal img c = Threw e σ →
  transactionLink c = "" →
  rendered_details (store (final (click_mint w ctx c))) = None.
Proof.
  intros Hv Hrun Hnone. rewrite (click_mint_finish _ _ _ _ _ Hv), Hrun.
  apply attempt_threw_inv in Hrun as (_&_&_&_&_& Hlink &_).
  unfold rendered_details. simpl. by rewrite Hlink, Hnone.
Qed.

(** *** Clicking again after a failure *)

(** The [try] block reads the form only through the metadata object and the
    mode flag. *)
Lemma mint_attempt_same_form wal img s c :
  name s = name c → symbol s = symbol c → description s = description c →
  useCore s = useCore c →
  mint_attempt w wal img s = mint_attempt w wal img c.
Proof.
  intros Hname Hsymbol Hdescription Hmode.
  unfold mint_attempt.
  by rewrite (build_metadata_same_form s c Hname Hsymbol Hdescription), Hmode.
Qed.

(** Its calls do not depend on what the store holds when it starts. *)
Lemma attempt_log_any_store wal img c s1 s2 :
  log (final (finish
    ((setIsMinting true;; mint_attempt w wal img c) {| store := s1; log := [] |})))
  = log (final (finish
    ((setIsMinting true;; mint_attempt w wal img c) {| store := s2; log := [] |}))).
Proof. unfold_run. split_answers; reflexivity. Qed.

(** X15: after a failed attempt the form still passes the guards, and a
    second click makes, call for call, what a first click of the same form
    would make in the world it runs in: the failed attempt leaves nothing
    behind that changes a retry. *)
Theorem retry_after_failure_repeats_first_click (w0 : World) ctx c wal img
  (e : Exn) σ :
  validated ctx c wal img →
  run_attempt w0 wal img c = Threw e σ →
  let s' := store (final (click_mint w0 ctx c)) in
  validated ctx s' wal img ∧
  log (final (click_mint w ctx s')) = log (final (click_mint w ctx c)).
Proof.
  intros Hv Hrun s'.
  assert (name s' = name c ∧ symbol s' = symbol c ∧
          description s' = description c ∧ image s' = image c ∧
          useCore s' = useCore c) as (Hn & Hs & Hd & Hi & Hm).
  { unfold s'. rewrite (click_mint_finish _ _ _ _ _ Hv), Hrun.
    apply attempt_threw_inv in Hrun as (?&?&?&?&?&_). by simpl. }
  assert (validated ctx s' wal img) as Hv'.
  { destruct Hv as (?&?&?&?&?&?). unfold validated.
    rewrite Hn, Hs, Hd, Hi. by split_and!. }
  split; [done|].
  rewrite (click_mint_finish _ _ _ _ _ Hv), (click_mint_finish _ _ _ _ _ Hv').
  unfold run_attempt.
  rewrite (mint_attempt_same_form wal img s' c Hn Hs Hd Hm).
  apply attempt_log_any_store.
Qed.

(** *** Choosing the image *)

(** X16: when the file input reports a selection of several files, the
    image cell holds the first one, and a mint of the form then uploads that
    file and no other: the first call of the run posts it, and every
    form-data body of the run holds it alone. *)
Theorem first_selected_file_is_uploaded ctx s wal (file : File)
  (others : list File) :
  is_Some (publicKey ctx) → wallet ctx = Some wal →
  name s ≠ "" → symbol s ≠ "" → description s ≠ "" →
  let s' := after (handleImageChange (Some (file :: others))) s in
  image s' = Some file ∧
  log (final (click_mint w ctx s')) !! 0
  = Some (axios_post_call pinFileToIPFS (FormData [("file", file)])
            (pinata_headers (PINATA_API_KEY w) (PINATA_SECRET_API_KEY w)
               "multipart/form-data")) ∧
  ∀ url entries headers,
    axios_post_call url (FormData entries) headers
      ∈ log (final (click_mint w ctx s')) →
    entries = [("file", file)].
Proof.
  intros Hpk Hwal Hn Hs Hd s'.
  assert (validated ctx s' wal file) as Hv by (by split_and!).
  split; [done|].
  rewrite (click_mint_finish _ _ _ _ _ Hv). split.
  - unfold_run. by split_answers.
  - intros url entries headers.
    unfold_run. split_answers; simpl; intros H; elem_cases H; by simplify_eq.
Qed.

(** X17: when the file input reports an empty selection, the image cell is
    cleared, whatever it held, and a mint of the form by a connected wallet
    is refused with the "Missing information" toast and without any call; a
    null selection leaves the store as it is. *)
Theorem empty_selection_clears_image ctx s wal :
  is_Some (publicKey ctx) → wallet ctx = Some wal →
  let s' := after (handleImageChange (Some [])) s in
  image s' = None ∧
  click_mint w ctx s'
  = Returned () {| store := s'; log := [toast_call missing_information] |} ∧
  after (handleImageChange None) s = s.
Proof.
  intros [pk Hpk] Hwal s'. split; [done|]. split; [|by destruct s].
  unfold click_mint, handleMint. rewrite Hpk, Hwal.
  by destruct (truthy (name s')), (truthy (symbol s')),
       (truthy (description s')).
Qed.

(** *** The guards and the mode buttons *)

(** X18: the wallet guard comes first: a click without a connected wallet
    shows "Wallet not connected" even when fields are empty too, and
    "Missing information" is shown only to a connected wallet. *)
Theorem refusal_names_first_failed_guard ctx c :
  precondition_fails ctx c →
  handleMint w ctx c
  = toast match publicKey ctx, wallet ctx with
          | Some _, Some _ => missing_information
          | _, _ => wallet_not_connected
          end.
Proof.
  unfold precondition_fails, handleMint. intros Hfail.
  destruct (publicKey ctx) as [pk|], (wallet ctx) as [wal|]; try done.
  destruct Hfail as [?|[?|[Hn|[Hs|[Hd|Hi]]]]]; try done.
  - by rewrite Hn.
  - rewrite Hs. by destruct (truthy (name c)).
  - rewrite Hd. by destruct (truthy (name c)), (truthy (symbol c)).
  - rewrite Hi.
    by destruct (truthy (name c)), (truthy (symbol c)), (truthy (description c)).
Qed.

(** X19: the mode buttons decide the path of the next mint: after "Use
    Core" ([setUseCore(true)]) a submitted transaction is built by [create],
    after "Use Token Metadata" ([setUseCore(false)]) by [createNft]; the
    buttons leave the name that is submitted as it was. *)
Theorem mode_button_selects_path ctx s (v : bool) builder umi :
  sendAndConfirm_call builder umi
    ∈ log (final (click_mint w ctx (after (setUseCore v) s))) →
  is_core_path builder = v ∧
  path_plugin builder ∈ plugins umi ∧
  builder_name builder = name s.
Proof.
  intros Hin.
  apply click_mint_log in Hin as (wal & img & Hv & Hin); [|done].
  pose proof (attempt_onchain_inv w wal img _ builder umi Hin)
    as (_ & Hpath & -> & _).
  apply attempt_builder_inv in Hin as (_&_&_&_&_&_&_& Hname &_).
  split; [done|]. split; [|done].
  destruct builder; simpl in Hpath; rewrite <- Hpath; cbn;
    rewrite !elem_of_cons; tauto.
Qed.

End Flows.

(** *** The statements at concrete inputs *)

Lemma click_mint_returns_idle_witness :
  isMinting Demo.form = false ∧
  ∃ σ, click_mint Demo.rejecting Demo.connected Demo.form = Returned () σ ∧
       isMinting (store σ) = false ∧
       mint_button_label (store σ) = "Mint NFT" ∧
       mint_button_disabled Demo.connected (store σ)
       = mint_button_disabled Demo.connected Demo.form.
Proof.
  split; [reflexivity|].
  exact (click_mint_returns_idle Demo.rejecting Demo.connected Demo.form
           eq_refl).
Defined.

Lemma image_upload_failure_stops_run_witness :
  validated Demo.connected Demo.form Demo.phantom Demo.ape_png ∧
  image_upload Demo.offline Demo.ape_png = inl NetworkError ∧
  click_mint Demo.offline Demo.connected Demo.form
  = Returned ()
      {| store := with_isMinting false Demo.form;
         log := [ axios_post_call pinFileToIPFS
                    (FormData [("file", Demo.ape_png)])
                    (pinata_headers (PINATA_API_KEY Demo.offline)
                       (PINATA_SECRET_API_KEY Demo.offline)
                       "multipart/form-data");
                  console_error "Error minting NFT:" NetworkError;
                  toast_call error_minting ] |}.
Proof.
  split; [exact demo_validated|]. split; [reflexivity|].
  exact (image_upload_failure_stops_run Demo.offline Demo.connected Demo.form
           Demo.phantom Demo.ape_png NetworkError demo_validated eq_refl).
Defined.


Lemma metadata_upload_failure_keeps_image_url_witness :
  validated Demo.connected Demo.form Demo.phantom Demo.ape_png ∧
  image_upload DemoFlows.json_rejected Demo.ape_png
  = inr {| IpfsHash := "QmImage" |} ∧
  metadata_upload DemoFlows.json_rejected Demo.form (gateway +:+ "QmImage")
  = inl UploadRejected ∧
  click_mint DemoFlows.json_rejected Demo.connected Demo.form
  = Returned ()
      {| store := with_isMinting false
                    (with_imageUrl (gateway +:+ "QmImage") Demo.form);
         log := [ axios_post_call pinFileToIPFS
                    (FormData [("file", Demo.ape_png)])
                    (pinata_headers (PINATA_API_KEY DemoFlows.json_rejected)
                       (PINATA_SECRET_API_KEY DemoFlows.json_rejected)
                       "multipart/form-data");
                  console_log "Image uploaded to IPFS at:"
                    (gateway +:+ "QmImage");
                  axios_post_call pinJSONToIPFS
                    (JsonBody (build_metadata Demo.form (gateway +:+ "QmImage")))
                    (pinata_headers (PINATA_API_KEY DemoFlows.json_rejected)
                       (PINATA_SECRET_API_KEY DemoFlows.json_rejected)
                       "application/json");
                  console_error "Error minting NFT:" UploadRejected;
                  toast_call error_minting ] |}.
Proof.
  assert (image_upload DemoFlows.json_rejected Demo.ape_png
          = inr {| IpfsHash := "QmImage" |}) as Himg.
  { vm_compute. reflexivity. }
  assert (metadata_upload DemoFlows.json_rejected Demo.form
            (gateway +:+ "QmImage") = inl UploadRejected) as Hjson.
  { vm_compute. reflexivity. }
  split; [exact demo_validated|]. split; [exact Himg|]. split; [exact Hjson|].
  exact (metadata_upload_failure_keeps_image_url DemoFlows.json_rejected
           Demo.connected Demo.form Demo.phantom Demo.ape_png
           {| IpfsHash := "QmImage" |} UploadRejected
           demo_validated Himg Hjson).
Defined.

Lemma submitted_transaction_references_metadata_witness :
  let umi := configure_umi true Demo.phantom in
  let builder :=
    create umi {| asset := {| signer_publicKey := "As5et" |};
                  core_name := "Ape";
                  core_uri := gateway +:+ "QmMeta" |} in
  sendAndConfirm_call builder umi
    ∈ log (final (click_mint Demo.happy Demo.connected Demo.form)) ∧
  ∃ wal img r1 r2 signer,
    wallet Demo.connected = Some wal ∧ image Demo.form = Some img ∧
    umi = configure_umi (useCore Demo.form) wal ∧
    image_upload Demo.happy img = inr r1 ∧
    metadata_upload Demo.happy Demo.form (gateway +:+ IpfsHash r1) = inr r2 ∧
    generateSigner Demo.happy umi = inr signer ∧
    builder_name builder = name Demo.form ∧
    builder_uri builder = gateway +:+ IpfsHash r2 ∧
    builder_signer builder = signer ∧
    builder_fee builder = (if useCore Demo.form then None else Some 0%N).
Proof.
  intros umi builder.
  assert (sendAndConfirm_call builder umi
            ∈ log (final (click_mint Demo.happy Demo.connected Demo.form)))
    as Hin.
  { apply list_elem_of_lookup. exists 4. vm_compute. reflexivity. }
  split; [exact Hin|].
  exact (submitted_transaction_references_metadata Demo.happy Demo.connected
           Demo.form builder umi Hin).
Defined.

Lemma success_toast_names_submitted_signer_witness :
  validated Demo.connected Demo.form Demo.phantom Demo.ape_png ∧
  (∃ σ, run_attempt Demo.happy Demo.phantom Demo.ape_png Demo.form
        = Returned () σ) ∧
  ∃ builder,
    sendAndConfirm_call builder (configure_umi (useCore Demo.form) Demo.phantom)
      ∈ log (final (click_mint Demo.happy Demo.connected Demo.form)) ∧
    List.filter is_toast
      (log (final (click_mint Demo.happy Demo.connected Demo.form)))
    = [ toast_call
          {| title := "NFT minted successfully!";
             toast_description :=
               "Mint address: " +:+ signer_publicKey (builder_signer builder);
             variant := None |} ].
Proof.
  split; [exact demo_validated|]. split; [exact demo_happy_returns|].
  destruct demo_happy_returns as [σ Hrun].
  exact (success_toast_names_submitted_signer Demo.happy Demo.connected
           Demo.form Demo.phantom Demo.ape_png σ demo_validated Hrun).
Defined.

Lemma second_click_after_success_is_refused_witness :
  validated Demo.connected Demo.form Demo.phantom Demo.ape_png ∧
  (∃ σ, run_attempt Demo.happy Demo.phantom Demo.ape_png Demo.form
        = Returned () σ) ∧
  let s' := store (final (click_mint Demo.happy Demo.connected Demo.form)) in
  click_mint Demo.happy Demo.connected s'
  = Returned () {| store := s'; log := [toast_call missing_information] |}.
Proof.
  split; [exact demo_validated|]. split; [exact demo_happy_returns|].
  destruct demo_happy_returns as [σ Hrun].
  exact (second_click_after_success_is_refused Demo.happy Demo.connected
           Demo.form Demo.phantom Demo.ape_png σ Demo.happy
           demo_validated Hrun).
Defined.

Lemma success_renders_three_links_witness :
  validated Demo.connected Demo.form Demo.phantom Demo.ape_png ∧
  (∃ σ, run_attempt Demo.happy Demo.phantom Demo.ape_png Demo.form
        = Returned () σ) ∧
  ∃ r1 r2 builder tx sig,
    image_upload Demo.happy Demo.ape_png = inr r1 ∧
    metadata_upload Demo.happy Demo.form (gateway +:+ IpfsHash r1) = inr r2 ∧
    sendAndConfirm Demo.happy builder
      (configure_umi (useCore Demo.form) Demo.phantom) = inr tx ∧
    base58_deserialize Demo.happy (signature tx) = inr sig ∧
    rendered_details
      (store (final (click_mint Demo.happy Demo.connected Demo.form)))
    = Some ("https://explorer.solana.com/tx/" +:+ sig.1 +:+ "?cluster=devnet",
            gateway +:+ IpfsHash r1, gateway +:+ IpfsHash r2).
Proof.
  split; [exact demo_validated|]. split; [exact demo_happy_returns|].
  destruct demo_happy_returns as [σ Hrun].
  exact (success_renders_three_links Demo.happy Demo.connected Demo.form
           Demo.phantom Demo.ape_png σ demo_validated Hrun).
Defined.

Lemma first_form_validated :
  validated Demo.connected DemoFlows.first_form_with_image Demo.phantom
    DemoFlows.owl_png.
Proof. unfold validated. simpl. split_and!; eauto; discriminate. Defined.

Lemma first_form_offline_throws :
  ∃ σ, run_attempt Demo.offline Demo.phantom DemoFlows.owl_png
         DemoFlows.first_form_with_image
       = Threw NetworkError σ.
Proof. eexists. vm_compute. reflexivity. Defined.

Lemma first_failure_renders_nothing_witness :
  validated Demo.connected DemoFlows.first_form_with_image Demo.phantom
    DemoFlows.owl_png ∧
  (∃ σ, run_attempt Demo.offline Demo.phantom DemoFlows.owl_png
          DemoFlows.first_form_with_image
        = Threw NetworkError σ) ∧
  transactionLink DemoFlows.first_form_with_image = "" ∧
  rendered_details
    (store (final (click_mint Demo.offline Demo.connected
                     DemoFlows.first_form_with_image)))
  = None.
Proof.
  split; [exact first_form_validated|].
  split; [exact first_form_offline_throws|]. split; [reflexivity|].
  destruct first_form_offline_throws as [σ Hrun].
  exact (first_failure_renders_nothing Demo.offline Demo.connected
           DemoFlows.first_form_with_image Demo.phantom DemoFlows.owl_png
           NetworkError σ first_form_validated Hrun eq_refl).
Defined.

Lemma retry_after_failure_repeats_first_click_witness :
  validated Demo.connected Demo.form Demo.phantom Demo.ape_png ∧
  (∃ σ, run_attempt Demo.rejecting Demo.phantom Demo.ape_png Demo.form
        = Threw ChainRejected σ) ∧
  let s' :=
    store (final (click_mint Demo.rejecting Demo.connected Demo.form)) in
  validated Demo.connected s' Demo.phantom Demo.ape_png ∧
  log (final (click_mint Demo.happy Demo.connected s'))
  = log (final (click_mint Demo.happy Demo.connected Demo.form)).
Proof.
  split; [exact demo_validated|].
  destruct demo_rejecting_throws as (σ & Hrun & _).
  split; [by exists σ|].
  exact (retry_after_failure_repeats_first_click Demo.happy Demo.rejecting
           Demo.connected Demo.form Demo.phantom Demo.ape_png ChainRejected σ
           demo_validated Hrun).
Defined.

Lemma first_selected_file_is_uploaded_witness :
  (is_Some (publicKey Demo.connected) ∧
   wallet Demo.connected = Some Demo.phantom ∧
   name DemoFlows.first_form ≠ "" ∧ symbol DemoFlows.first_form ≠ "" ∧
   description DemoFlows.first_form ≠ "") ∧
  let s' :=
    after (handleImageChange (Some [DemoFlows.owl_png; DemoFlows.owl_jpg]))
      DemoFlows.first_form in
  image s' = Some DemoFlows.owl_png ∧
  log (final (click_mint Demo.happy Demo.connected s')) !! 0
  = Some (axios_post_call pinFileToIPFS
            (FormData [("file", DemoFlows.owl_png)])
            (pinata_headers (PINATA_API_KEY Demo.happy)
               (PINATA_SECRET_API_KEY Demo.happy) "multipart/form-data")) ∧
  ∀ url entries headers,
    axios_post_call url (FormData entries) headers
      ∈ log (final (click_mint Demo.happy Demo.connected s')) →
    entries = [("file", DemoFlows.owl_png)].
Proof.
  assert (is_Some (publicKey Demo.connected)) as Hpk by (by eexists).
  assert (name DemoFlows.first_form ≠ "") as Hn by discriminate.
  assert (symbol DemoFlows.first_form ≠ "") as Hs by discriminate.
  assert (description DemoFlows.first_form ≠ "") as Hd by discriminate.
  split; [by split_and!|].
  exact (first_selected_file_is_uploaded Demo.happy Demo.connected
           DemoFlows.first_form Demo.phantom DemoFlows.owl_png
           [DemoFlows.owl_jpg] Hpk eq_refl Hn Hs Hd).
Defined.

Lemma empty_selection_clears_image_witness :
  (is_Some (publicKey Demo.connected) ∧
   wallet Demo.connected = Some Demo.phantom) ∧
  let s' := after (handleImageChange (Some [])) Demo.form in
  image s' = None ∧
  click_mint Demo.happy Demo.connected s'
  = Returned () {| store := s'; log := [toast_call missing_information] |} ∧
  after (handleImageChange None) Demo.form = Demo.form.
Proof.
  assert (is_Some (publicKey Demo.connected)) as Hpk by (by eexists).
  split; [by split|].
  exact (empty_selection_clears_image Demo.happy Demo.connected Demo.form
           Demo.phantom Hpk eq_refl).
Defined.

Lemma refusal_names_first_failed_guard_witness :
  precondition_fails Demo.disconnected Demo.form_without_name ∧
  handleMint Demo.happy Demo.disconnected Demo.form_without_name
  = toast match publicKey Demo.disconnected, wallet Demo.disconnected with
          | Some _, Some _ => missing_information
          | _, _ => wallet_not_connected
          end.
Proof.
  assert (precondition_fails Demo.disconnected Demo.form_without_name)
    as Hfail.
  { left. reflexivity. }
  split; [exact Hfail|].
  exact (refusal_names_first_failed_guard Demo.happy Demo.disconnected
           Demo.form_without_name Hfail).
Defined.

Lemma mode_button_selects_path_witness :
  let umi := configure_umi false Demo.phantom in
  let builder :=
    createNft umi {| mint := {| signer_publicKey := "As5et" |};
                     sellerFeeBasisPoints := 0;
                     nft_name := "Ape";
                     nft_uri := gateway +:+ "QmMeta" |} in
  sendAndConfirm_call builder umi
    ∈ log (final (click_mint Demo.happy Demo.connected
                    (after (setUseCore false) Demo.form))) ∧
  is_core_path builder = false ∧
  path_plugin builder ∈ plugins umi ∧
  builder_name builder = name Demo.form.
Proof.
  intros umi builder.
  assert (sendAndConfirm_call builder umi
            ∈ log (final (click_mint Demo.happy Demo.connected
                            (after (setUseCore false) Demo.form))))
    as Hin.
  { apply list_elem_of_lookup. exists 4. vm_compute. reflexivity. }
  split; [exact Hin|].
  exact (mode_button_selects_path Demo.happy Demo.connected Demo.form false
           builder umi Hin).
Defined.

End MinterFlowFacts.
